(** * caeriscv: the two binary-file scripts

    [convert_to_little.py] rewrites a file of big-endian 32-bit words as
    little-endian words; [read_binary.py] prints the little-endian words of
    a file in decimal.

    Both scripts are straight-line Python over [sys.argv], file objects,
    [struct] and [print].  They are embedded as computations in a small
    state-and-exception monad over a [world] (file system, table of file
    objects, standard output).  The interpreter's services ([open], [read],
    [write], [close], [os.fstat], [struct.pack], [struct.unpack], [print],
    [exit]) are modelled once, in the modules [Struct] and [Py]; the scripts
    themselves are transcribed statement by statement in [Converter] and
    [Dumper]. *)

From Stdlib Require Import ZArith Ascii String Strings.Byte Numbers.DecimalString.
From stdpp Require Import gmap strings list fin_maps.

Local Open Scope Z_scope.

(** ** Bytes and the [struct] codec for format [I] *)

Definition byte_val (b : byte) : Z := Z.of_N (Byte.to_N b).

Definition byte_of_Z (z : Z) : byte :=
  match Byte.of_N (Z.to_N z) with
  | Some b => b
  | None => x00
  end.

(** Python exceptions the two scripts can meet. [SystemExit] is what the
    builtin [exit] raises. *)
Inductive exn : Type :=
  | StructError
  | FileNotFoundError
  | PermissionError
  | ValueError
  | IndexError
  | SystemExit (code : Z).

Module Struct.

Inductive order : Type := Big | Little.

(** [struct.unpack('>I', data)[0]] and [struct.unpack('<I', data)[0]]:
    [data] must hold exactly four bytes, otherwise [struct.error]. *)
Definition unpack_I (o : order) (data : list byte) : exn + Z :=
  match data with
  | [b0; b1; b2; b3] =>
      match o with
      | Big =>
          inr (byte_val b0 * 2 ^ 24 + byte_val b1 * 2 ^ 16
               + byte_val b2 * 2 ^ 8 + byte_val b3)
      | Little =>
          inr (byte_val b0 + byte_val b1 * 2 ^ 8
               + byte_val b2 * 2 ^ 16 + byte_val b3 * 2 ^ 24)
      end
  | _ => inl StructError
  end.

(** [struct.pack('>I', v)] and [struct.pack('<I', v)]: [struct.error]
    unless [0 <= v < 2^32]. *)
Definition pack_I (o : order) (v : Z) : exn + list byte :=
  if (0 <=? v) && (v <? 2 ^ 32) then
    let b k := byte_of_Z ((v / 2 ^ (8 * k)) mod 256) in
    match o with
    | Big => inr [b 3; b 2; b 1; b 0]
    | Little => inr [b 0; b 1; b 2; b 3]
    end
  else inl StructError.

End Struct.

(** [str(v)] for a Python integer. *)
Definition py_str (v : Z) : string := NilZero.string_of_int (Z.to_int v).

Definition nl : string := String "010"%char EmptyString.
Definition tab : string := String "009"%char EmptyString.

Local Close Scope Z_scope.

(** ** The interpreter's world

    A file object is a position in a named file; the file's bytes live in
    the file system, so two objects on one path see each other's effects and
    a file shortened behind an open object yields short reads.  Python's
    user-space buffering is not modelled: the scripts never hold two objects
    on a path that one of them writes and the other still reads. *)

Inductive mode : Type := RB | WB.

Record file_obj : Type := FileObj {
  fo_path : string;
  fo_mode : mode;
  fo_pos : nat;
  fo_closed : bool
}.

Record world : Type := World {
  files : gmap string (list byte);   (* path -> contents *)
  readonly : gset string;            (* paths that cannot be opened 'wb' *)
  fds : list file_obj;               (* every file object created so far *)
  stdout : string
}.

Definition set_files (f : gmap string (list byte) → gmap string (list byte))
    (w : world) : world :=
  World (f (files w)) (readonly w) (fds w) (stdout w).

Definition set_fds (f : list file_obj → list file_obj) (w : world) : world :=
  World (files w) (readonly w) (f (fds w)) (stdout w).

Definition set_stdout (f : string → string) (w : world) : world :=
  World (files w) (readonly w) (fds w) (f (stdout w)).

(** A statement either yields a value, raises, or (for the [while] loop
    only) runs out of the iterations it was given. *)
Inductive result (A : Type) : Type :=
  | Val (a : A)
  | Raise (e : exn)
  | Diverge.
Arguments Val {A} a.
Arguments Raise {A} e.
Arguments Diverge {A}.

Definition M (A : Type) : Type := world → world * result A.

#[global] Instance M_ret : MRet M := λ A a w, (w, Val a).

#[global] Instance M_bind : MBind M := λ A B k m w,
  match m w with
  | (w', Val a) => k a w'
  | (w', Raise e) => (w', Raise e)
  | (w', Diverge) => (w', Diverge)
  end.

(** The exit status the operating system sees: 0 when the script runs off
    its end, the argument of [exit], and 1 for any other uncaught
    exception. *)
Definition exit_status {A} (r : result A) : option Z :=
  match r with
  | Val _ => Some 0%Z
  | Raise (SystemExit c) => Some c
  | Raise _ => Some 1%Z
  | Diverge => None
  end.

Module Py.

Definition raise {A} (e : exn) : M A := λ w, (w, Raise e).

Definition diverge {A} : M A := λ w, (w, Diverge).

(** Lift a [struct] call into the monad. *)
Definition lift {A} (r : exn + A) : M A :=
  match r with
  | inl e => raise e
  | inr a => mret a
  end.

(** [try: body finally: fin] *)
Definition try_finally {A} (body : M A) (fin : M unit) : M A := λ w,
  match body w with
  | (w1, Diverge) => (w1, Diverge)
  | (w1, r) =>
      match fin w1 with
      | (w2, Val _) => (w2, r)
      | (w2, Raise e) => (w2, Raise e)
      | (w2, Diverge) => (w2, Diverge)
      end
  end.

(** [try: body except struct.error: handler] *)
Definition try_except_struct {A} (body handler : M A) : M A := λ w,
  match body w with
  | (w1, Raise StructError) => handler w1
  | other => other
  end.

(** [sys.argv[i]] *)
Definition argv_at (argv : list string) (i : nat) : M string :=
  match argv !! i with
  | Some s => mret s
  | None => raise IndexError
  end.

(** [open(path, 'rb')] needs the file to exist; [open(path, 'wb')] creates
    it or truncates it to nothing.  The new object is the next entry of
    the table. *)
Definition open (path : string) (m : mode) : M nat := λ w,
  match m with
  | RB =>
      match files w !! path with
      | Some _ =>
          (set_fds (λ t, t ++ [FileObj path RB 0 false]) w,
           Val (length (fds w)))
      | None => (w, Raise FileNotFoundError)
      end
  | WB =>
      if decide (path ∈ readonly w) then (w, Raise PermissionError)
      else
        (set_fds (λ t, t ++ [FileObj path WB 0 false])
           (set_files (insert path []) w),
         Val (length (fds w)))
  end.

Definition contents (w : world) (path : string) : list byte :=
  default [] (files w !! path).

(** [f.read(n)]: up to [n] bytes from the current position. *)
Definition read (fd n : nat) : M (list byte) := λ w,
  match fds w !! fd with
  | Some f =>
      match fo_mode f, fo_closed f with
      | RB, false =>
          let data := take n (drop (fo_pos f) (contents w (fo_path f))) in
          (set_fds (insert fd (FileObj (fo_path f) RB
                                 (fo_pos f + length data) false)) w,
           Val data)
      | _, _ => (w, Raise ValueError)
      end
  | None => (w, Raise ValueError)
  end.

(** Overwrite [old] from offset [pos] with [data], zero-filling a gap. *)
Definition splice (pos : nat) (data old : list byte) : list byte :=
  take pos old ++ replicate (pos - length old) x00
    ++ data ++ drop (pos + length data) old.

(** [f.write(data)] *)
Definition write (fd : nat) (data : list byte) : M unit := λ w,
  match fds w !! fd with
  | Some f =>
      match fo_mode f, fo_closed f with
      | WB, false =>
          (set_fds (insert fd (FileObj (fo_path f) WB
                                 (fo_pos f + length data) false))
             (set_files (insert (fo_path f)
                           (splice (fo_pos f) data
                              (contents w (fo_path f)))) w),
           Val ())
      | _, _ => (w, Raise ValueError)
      end
  | None => (w, Raise ValueError)
  end.

(** [f.close()]; closing twice is allowed. *)
Definition close (fd : nat) : M unit := λ w,
  match fds w !! fd with
  | Some f =>
      (set_fds (insert fd (FileObj (fo_path f) (fo_mode f) (fo_pos f) true))
         w, Val ())
  | None => (w, Raise ValueError)
  end.

(** [os.fstat(f.fileno()).st_size] *)
Definition fstat_size (fd : nat) : M nat := λ w,
  match fds w !! fd with
  | Some f =>
      if fo_closed f then (w, Raise ValueError)
      else (w, Val (length (contents w (fo_path f))))
  | None => (w, Raise ValueError)
  end.

(** [print(s, end=ending)] *)
Definition print (s ending : string) : M unit := λ w,
  (set_stdout (λ out, out +:+ (s +:+ ending)) w, Val ()).

(** [exit(code)] *)
Definition exit {A} (code : Z) : M A := raise (SystemExit code).

(** Another process rewriting the file system while the script runs. *)
Definition interference
    (env : gmap string (list byte) → gmap string (list byte)) : M unit :=
  λ w, (set_files env w, Val ()).

Inductive ctl : Type := Next | Break.

(** [for i in range(n): body], where [body] may [break]. *)
Fixpoint for_range (n : nat) (body : M ctl) : M unit :=
  match n with
  | O => mret ()
  | S n' =>
      c ← body;
      match c with
      | Break => mret ()
      | Next => for_range n' body
      end
  end.

End Py.

(** ** convert_to_little.py *)

Module Converter.

(** The [while data:] loop; [data] is the chunk just read.  [fuel] bounds
    the number of iterations. *)
Fixpoint while_data (fuel in_file out_file : nat) (data : list byte)
    : M unit :=
  match data with
  | [] => mret ()
  | _ :: _ =>
      match fuel with
      | O => Py.diverge
      | S fuel' =>
          value ← Py.lift (Struct.unpack_I Struct.Big data);
          new_value ← Py.lift (Struct.pack_I Struct.Little value);
          Py.write out_file new_value;;
          data' ← Py.read in_file 4;
          while_data fuel' in_file out_file data'
      end
  end.

Definition main (fuel : nat) (argv : list string) : M unit :=
  (if negb (length argv =? 3)%nat then
     prog ← Py.argv_at argv 0;
     Py.print ("Usage: " +:+ prog +:+ " <in_file> <out_file>") nl;;
     Py.exit 1%Z
   else mret ());;
  in_path ← Py.argv_at argv 1;
  in_file ← Py.open in_path RB;
  out_path ← Py.argv_at argv 2;
  out_file ← Py.open out_path WB;
  Py.try_finally
    (data ← Py.read in_file 4;
     while_data fuel in_file out_file data)
    (Py.close in_file;;
     Py.close out_file).

End Converter.

(** ** read_binary.py *)

Module Dumper.

(** One pass through the body of the [for] loop. *)
Definition body (binary_file : nat) (ending : string) : M Py.ctl :=
  r ← Py.try_except_struct
        (data ← Py.read binary_file 4;
         result ← Py.lift (Struct.unpack_I Struct.Little data);
         mret (Some result))
        (mret None);
  match r with
  | None => mret Py.Break
  | Some result => Py.print (py_str result) ending;; mret Py.Next
  end.

(** The script, with the file system handed to [env] once, between the
    size query and the first read. *)
Definition run (env : gmap string (list byte) → gmap string (list byte))
    (argv : list string) : M unit :=
  let ending := nl in
  let args := argv in
  (if (length args <? 2)%nat then
     prog ← Py.argv_at argv 0;
     Py.print ("Usage: " +:+ prog +:+ " <filename> [seperator]") nl;;
     Py.print EmptyString nl;;
     Py.print (tab +:+ "Default seperator is newline") nl;;
     Py.exit 1%Z
   else mret ());;
  filename ← Py.argv_at args 1;
  ending ← (if (2 <? length args)%nat then Py.argv_at args 2
            else mret ending);
  binary_file ← Py.open filename RB;
  size ← Py.fstat_size binary_file;
  let iteration_count := (size / 4)%nat in
  Py.interference env;;
  Py.for_range iteration_count (body binary_file ending).

(** The script run with nothing else touching the file system. *)
Definition main (argv : list string) : M unit := run id argv.

(** The [for] loop with the rest of the system running beside it: before
    pass [i] the file system is handed to [envs i]. *)
Fixpoint passes (envs : nat → gmap string (list byte) → gmap string (list byte))
    (i n binary_file : nat) (ending : string) : M unit :=
  match n with
  | O => mret ()
  | S n' =>
      Py.interference (envs i);;
      c ← body binary_file ending;
      match c with
      | Py.Break => mret ()
      | Py.Next => passes envs (S i) n' binary_file ending
      end
  end.

(** The script with the file system changing under it during the whole
    loop, not only once before it. *)
Definition run_live
    (envs : nat → gmap string (list byte) → gmap string (list byte))
    (argv : list string) : M unit :=
  let ending := nl in
  let args := argv in
  (if (length args <? 2)%nat then
     prog ← Py.argv_at argv 0;
     Py.print ("Usage: " +:+ prog +:+ " <filename> [seperator]") nl;;
     Py.print EmptyString nl;;
     Py.print (tab +:+ "Default seperator is newline") nl;;
     Py.exit 1%Z
   else mret ());;
  filename ← Py.argv_at args 1;
  ending ← (if (2 <? length args)%nat then Py.argv_at args 2
            else mret ending);
  binary_file ← Py.open filename RB;
  size ← Py.fstat_size binary_file;
  let iteration_count := (size / 4)%nat in
  passes envs 0 iteration_count binary_file ending.

End Dumper.

(** ** The end of the process *)

Definition close_obj (f : file_obj) : file_obj :=
  FileObj (fo_path f) (fo_mode f) (fo_pos f) true.

(** Interpreter shutdown: every file object still open is closed, and with
    it the operating system's descriptor is released. *)
Definition finalize (w : world) : world := set_fds (map close_obj) w.

(** A script run as a process: its statements, then, once it has ended in
    any way, the shutdown; the process reports the exit status.  A loop
    that has not finished has not exited. *)
Definition process {A} (script : M A) (w : world) : world * option Z :=
  match script w with
  | (w', Diverge) => (w', None)
  | (w', r) => (finalize w', exit_status r)
  end.

(** ** Vocabulary of the statements *)

(** The values of the complete 4-byte words of a byte string, in order. *)
Fixpoint word_values (o : Struct.order) (bs : list byte) : list Z :=
  match bs with
  | b0 :: b1 :: b2 :: b3 :: rest =>
      match Struct.unpack_I o [b0; b1; b2; b3] with
      | inr v => v :: word_values o rest
      | inl _ => []
      end
  | _ => []
  end.

(** Every complete 4-byte word reversed; a trailing partial word dropped. *)
Fixpoint swap_words (bs : list byte) : list byte :=
  match bs with
  | b0 :: b1 :: b2 :: b3 :: rest => b3 :: b2 :: b1 :: b0 :: swap_words rest
  | _ => []
  end.

(** The [i]-th 4-byte word of a byte string. *)
Definition word_at (i : nat) (bs : list byte) : list byte :=
  take 4 (drop (4 * i) bs).

(** What printing the values [vs], each followed by [ending], writes. *)
Definition render (ending : string) (vs : list Z) : string :=
  foldr (λ v acc, (py_str v +:+ ending) +:+ acc) EmptyString vs.

(** Number of newline characters of a string, i.e. of lines printed. *)
Fixpoint count_lines (s : string) : nat :=
  match s with
  | EmptyString => 0
  | String c s' =>
      if Ascii.eqb c "010"%char then S (count_lines s') else count_lines s'
  end.

(** Every file object of the table has been closed. *)
Definition all_closed (w : world) : Prop :=
  Forall (λ f, fo_closed f = true) (fds w).

(** The state of the converter's loop: where its two file objects stand
    and what the two files hold. *)
Record conv_inv (w : world) (inp outp : string) (fi fo pos : nat)
    (content out : list byte) : Prop := ConvInv {
  ci_in : fds w !! fi = Some (FileObj inp RB pos false);
  ci_out : fds w !! fo = Some (FileObj outp WB (length out) false);
  ci_src : files w !! inp = Some content;
  ci_dst : files w !! outp = Some out
}.

(** What a run of the converter's loop leaves alone. *)
Record conv_frame (w w' : world) (outp : string) (fi fo : nat) : Prop :=
  ConvFrame {
  fr_readonly : readonly w' = readonly w;
  fr_stdout : stdout w' = stdout w;
  fr_length : length (fds w') = length (fds w);
  fr_fds : ∀ j, j ≠ fi → j ≠ fo → fds w' !! j = fds w !! j;
  fr_files : ∀ p, p ≠ outp → files w' !! p = files w !! p
}.

(** ** Sample inputs *)

Definition sample_fs : gmap string (list byte) :=
  {[ "in.bin" := [x00; x00; x00; x01; x12; x34; x56; x78];
     "words.bin" := [x01; x00; x00; x00; x02; x00; x00; x00];
     "six.bin" := [x01; x00; x00; x00; x02; x00] ]}.

Definition sample_world : world := World sample_fs ∅ [] EmptyString.







(** A world in which [out.bin] cannot be opened for writing. *)
Definition locked_world : world :=
  World sample_fs {[ "out.bin" ]} [] EmptyString.

(** ** Relations kept by every step of a computation *)

(** [m] relates the world it starts in to the world it ends in by [R],
    however it ends. *)
Definition preserves {A} (R : world → world → Prop) (m : M A) : Prop :=
  ∀ w w' r, m w = (w', r) → R w w'.

(** The file system is left as it was. *)
Definition same_files (w w' : world) : Prop := files w' = files w.

(** As long as file object [fo] stands on [outp], it still does afterwards,
    no file but [outp] has changed and nothing was printed. *)
Definition writes_only (outp : string) (fo : nat) (w w' : world) : Prop :=
  (∀ f, fds w !! fo = Some f → fo_path f = outp) →
  (∀ f, fds w' !! fo = Some f → fo_path f = outp)
  ∧ (∀ p, p ≠ outp → files w' !! p = files w !! p)
  ∧ stdout w' = stdout w.

(** ** Codec facts *)

Section Codec.

Local Open Scope Z_scope.

Lemma byte_val_range (b : byte) : 0 <= byte_val b < 256.
Proof.
  unfold byte_val. pose proof (Byte.to_N_bounded b) as Hb. lia.
Qed.

Lemma byte_of_Z_val (b : byte) : byte_of_Z (byte_val b) = b.
Proof.
  unfold byte_of_Z, byte_val. rewrite N2Z.id, Byte.of_to_N. reflexivity.
Qed.

Lemma byte_val_of_Z (z : Z) : 0 <= z < 256 -> byte_val (byte_of_Z z) = z.
Proof.
  intros Hz. unfold byte_of_Z, byte_val.
  destruct (Byte.of_N (Z.to_N z)) as [b|] eqn:E.
  - apply Byte.to_of_N in E. rewrite E. lia.
  - apply Byte.of_N_None_iff in E. lia.
Qed.

Lemma unpack_I_range o data v :
  Struct.unpack_I o data = inr v -> 0 <= v < 2 ^ 32.
Proof.
  destruct data as [|b0 [|b1 [|b2 [|b3 [|? ?]]]]]; simpl; try discriminate.
  pose proof (byte_val_range b0). pose proof (byte_val_range b1).
  pose proof (byte_val_range b2). pose proof (byte_val_range b3).
  destruct o; intros [= <-]; lia.
Qed.

Lemma unpack_I_length o data v :
  Struct.unpack_I o data = inr v -> length data = 4%nat.
Proof.
  destruct data as [|b0 [|b1 [|b2 [|b3 [|? ?]]]]]; simpl; try discriminate.
  reflexivity.
Qed.

Lemma unpack_I_short o data :
  length data ≠ 4%nat -> Struct.unpack_I o data = inl StructError.
Proof.
  destruct data as [|b0 [|b1 [|b2 [|b3 [|? ?]]]]]; simpl; try reflexivity.
  intros H. exfalso. apply H. reflexivity.
Qed.

(** Re-encoding a big-endian word as little-endian reverses its bytes. *)
Lemma pack_little_unpack_big b0 b1 b2 b3 :
  exists v, Struct.unpack_I Struct.Big [b0; b1; b2; b3] = inr v
         /\ Struct.pack_I Struct.Little v = inr [b3; b2; b1; b0].
Proof.
  eexists. split; [reflexivity|].
  pose proof (byte_val_range b0) as H0. pose proof (byte_val_range b1) as H1.
  pose proof (byte_val_range b2) as H2. pose proof (byte_val_range b3) as H3.
  unfold Struct.pack_I.
  set (v := byte_val b0 * 2 ^ 24 + byte_val b1 * 2 ^ 16
            + byte_val b2 * 2 ^ 8 + byte_val b3).
  assert (Hv : 0 <= v < 2 ^ 32) by (subst v; lia).
  replace ((0 <=? v) && (v <? 2 ^ 32)) with true
    by (symmetry; apply andb_true_iff; split; [apply Z.leb_le|apply Z.ltb_lt]; lia).
  cbv zeta.
  assert (E0 : (v / 2 ^ (8 * 0)) mod 256 = byte_val b3)
    by (subst v; change (2 ^ (8 * 0)) with 1;
        rewrite Z.div_1_r; Z.div_mod_to_equations; lia).
  assert (E1 : (v / 2 ^ (8 * 1)) mod 256 = byte_val b2)
    by (subst v; change (2 ^ (8 * 1)) with 256; Z.div_mod_to_equations; lia).
  assert (E2 : (v / 2 ^ (8 * 2)) mod 256 = byte_val b1)
    by (subst v; change (2 ^ (8 * 2)) with 65536; Z.div_mod_to_equations; lia).
  assert (E3 : (v / 2 ^ (8 * 3)) mod 256 = byte_val b0)
    by (subst v; change (2 ^ (8 * 3)) with 16777216;
        Z.div_mod_to_equations; lia).
  rewrite E0, E1, E2, E3, !byte_of_Z_val. reflexivity.
Qed.

Lemma unpack_little_rev_big b0 b1 b2 b3 :
  Struct.unpack_I Struct.Little [b3; b2; b1; b0]
  = Struct.unpack_I Struct.Big [b0; b1; b2; b3].
Proof. simpl. f_equal. lia. Qed.

End Codec.

(** ** Sequencing *)

Lemma bind_val {A B} (m : M A) (k : A → M B) w w1 a :
  m w = (w1, Val a) → (m ≫= k) w = k a w1.
Proof. intros E. unfold mbind, M_bind. rewrite E. reflexivity. Qed.

Lemma bind_raise {A B} (m : M A) (k : A → M B) w w1 e :
  m w = (w1, Raise e) → (m ≫= k) w = (w1, Raise e).
Proof. intros E. unfold mbind, M_bind. rewrite E. reflexivity. Qed.

Lemma bind_ret {A B} (a : A) (k : A → M B) w : (mret a ≫= k) w = k a w.
Proof. reflexivity. Qed.

Lemma try_finally_done {A} (body : M A) (fin : M unit) w w1 w2 r :
  body w = (w1, r) → r ≠ Diverge → fin w1 = (w2, Val ()) →
  Py.try_finally body fin w = (w2, r).
Proof.
  intros Hb Hr Hf. unfold Py.try_finally. rewrite Hb.
  destruct r; rewrite ?Hf; try reflexivity. congruence.
Qed.

(** ** The file primitives on a known file object *)

Lemma read_step w fd path pos content n :
  fds w !! fd = Some (FileObj path RB pos false) →
  files w !! path = Some content →
  Py.read fd n w
  = (set_fds (insert fd (FileObj path RB
                           (pos + length (take n (drop pos content))) false)) w,
     Val (take n (drop pos content))).
Proof.
  intros Hfd Hf. unfold Py.read, Py.contents. rewrite Hfd. simpl.
  rewrite Hf. reflexivity.
Qed.

Lemma splice_end (out data : list byte) :
  Py.splice (length out) data out = out ++ data.
Proof.
  unfold Py.splice. rewrite firstn_all, Nat.sub_diag. simpl.
  rewrite drop_ge by lia. rewrite app_nil_r. reflexivity.
Qed.

Lemma write_step w fd path out data :
  fds w !! fd = Some (FileObj path WB (length out) false) →
  files w !! path = Some out →
  Py.write fd data w
  = (set_fds (insert fd (FileObj path WB (length out + length data) false))
       (set_files (insert path (out ++ data)) w),
     Val ()).
Proof.
  intros Hfd Hf. unfold Py.write, Py.contents. rewrite Hfd. simpl.
  rewrite Hf. simpl. rewrite splice_end. reflexivity.
Qed.

Lemma close_step w fd path m pos c :
  fds w !! fd = Some (FileObj path m pos c) →
  Py.close fd w = (set_fds (insert fd (FileObj path m pos true)) w, Val ()).
Proof. intros Hfd. unfold Py.close. rewrite Hfd. reflexivity. Qed.

(** ** Words of a byte string *)

Lemma length_four_more {A} (a b c d : A) (l : list A) :
  length (a :: b :: c :: d :: l) = length l + 1 * 4.
Proof. simpl. lia. Qed.

Lemma drop_four_more {A} (a b c d : A) (l : list A) n :
  drop (4 + n) (a :: b :: c :: d :: l) = drop n l.
Proof. reflexivity. Qed.

(** Closes a goal whose hypothesis [H] bounds an index by the word count of
    a list of fewer than four elements. *)
Ltac no_word H := rewrite Nat.div_small in H by (simpl; lia); lia.

Lemma swap_words_length bs : length (swap_words bs) = 4 * (length bs / 4).
Proof.
  induction bs as [bs IH] using (induction_ltof1 _ (@length byte)).
  unfold ltof in IH.
  destruct bs as [|b0 [|b1 [|b2 [|b3 rest]]]]; try reflexivity.
  rewrite length_four_more, Nat.div_add by lia.
  cbn [swap_words length]. rewrite IH by (simpl; lia). lia.
Qed.

Lemma swap_words_exact bs :
  length bs mod 4 = 0 → length (swap_words bs) = length bs.
Proof.
  intros H. rewrite swap_words_length.
  pose proof (Nat.div_mod_eq (length bs) 4). lia.
Qed.

Lemma swap_words_involutive bs :
  length bs mod 4 = 0 → swap_words (swap_words bs) = bs.
Proof.
  induction bs as [bs IH] using (induction_ltof1 _ (@length byte)).
  unfold ltof in IH. intros H.
  destruct bs as [|b0 [|b1 [|b2 [|b3 rest]]]]; try reflexivity;
    try discriminate H.
  rewrite length_four_more, Nat.Div0.mod_add in H.
  cbn [swap_words]. rewrite IH by (simpl; lia || exact H). reflexivity.
Qed.

Lemma swap_words_word_at i bs :
  i < length bs / 4 →
  word_at i (swap_words bs) = reverse (word_at i bs).
Proof.
  revert bs. unfold word_at.
  induction i as [|i IH]; intros bs Hi.
  - destruct bs as [|b0 [|b1 [|b2 [|b3 rest]]]]; try no_word Hi.
    reflexivity.
  - destruct bs as [|b0 [|b1 [|b2 [|b3 rest]]]]; try no_word Hi.
    rewrite length_four_more, Nat.div_add in Hi by lia.
    replace (4 * S i) with (4 + 4 * i) by lia.
    cbn [swap_words]. rewrite !drop_four_more.
    apply IH. lia.
Qed.

Lemma word_at_length i (bs : list byte) :
  i < length bs / 4 → length (word_at i bs) = 4.
Proof.
  intros Hi. unfold word_at. rewrite length_take, length_drop.
  pose proof (Nat.div_mod_eq (length bs) 4). lia.
Qed.

Lemma word_at_four i (bs : list byte) :
  i < length bs / 4 → ∃ b0 b1 b2 b3, word_at i bs = [b0; b1; b2; b3].
Proof.
  intros Hi. pose proof (word_at_length i bs Hi) as L.
  destruct (word_at i bs) as [|b0 [|b1 [|b2 [|b3 [|? ?]]]]];
    try discriminate L. eauto.
Qed.

(** ** The converter's loop *)

Section ConverterLoop.

Context (inp outp : string) (fi fo : nat) (content : list byte).
Hypothesis paths_differ : inp ≠ outp.
Hypothesis objects_differ : fi ≠ fo.

Lemma frame_trans w1 w2 w3 :
  conv_frame w1 w2 outp fi fo → conv_frame w2 w3 outp fi fo →
  conv_frame w1 w3 outp fi fo.
Proof.
  intros [R1 S1 L1 D1 F1] [R2 S2 L2 D2 F2]. split; try congruence.
  - intros j Hi Ho. rewrite D2, D1; auto.
  - intros p Hp. rewrite F2, F1; auto.
Qed.

Lemma frame_set_in w f :
  conv_frame w (set_fds (insert fi f) w) outp fi fo.
Proof.
  split; simpl; auto.
  - apply length_insert.
  - intros j Hi Ho. apply list_lookup_insert_ne. auto.
Qed.

Lemma frame_set_out w f bs :
  conv_frame w (set_fds (insert fo f) (set_files (insert outp bs) w))
    outp fi fo.
Proof.
  split; simpl; auto.
  - apply length_insert.
  - intros j Hi Ho. apply list_lookup_insert_ne. auto.
  - intros p Hp. apply lookup_insert_ne. auto.
Qed.

Lemma inv_set_in w pos pos' out :
  conv_inv w inp outp fi fo pos content out →
  conv_inv (set_fds (insert fi (FileObj inp RB pos' false)) w)
    inp outp fi fo pos' content out.
Proof.
  intros [Hi Ho Hs Hd]. split; simpl; auto.
  - apply list_lookup_insert_eq. eapply lookup_lt_Some, Hi.
  - rewrite list_lookup_insert_ne; auto.
Qed.

Lemma inv_set_out w pos out data :
  conv_inv w inp outp fi fo pos content out →
  conv_inv (set_fds (insert fo (FileObj outp WB
                                  (length out + length data) false))
              (set_files (insert outp (out ++ data)) w))
    inp outp fi fo pos content (out ++ data).
Proof.
  intros [Hi Ho Hs Hd]. split; simpl.
  - rewrite list_lookup_insert_ne; auto.
  - rewrite length_app. apply list_lookup_insert_eq.
    eapply lookup_lt_Some, Ho.
  - rewrite lookup_insert_ne; auto.
  - apply lookup_insert_eq.
Qed.

(** Reading a chunk and running the loop from any position: the complete
    words that remain are appended to the output reversed; the loop ends
    normally when nothing else remains and raises [struct.error] on a
    trailing partial word. *)
Lemma read_loop_spec fuel : ∀ w pos out,
  conv_inv w inp outp fi fo pos content out →
  length (drop pos content) / 4 < fuel →
  ∃ w',
    (Py.read fi 4 ≫= Converter.while_data fuel fi fo) w
    = (w', if length (drop pos content) mod 4 =? 0 then Val ()
           else Raise StructError)
    ∧ conv_inv w' inp outp fi fo (pos + length (drop pos content)) content
        (out ++ swap_words (drop pos content))
    ∧ conv_frame w w' outp fi fo.
Proof.
  induction fuel as [|fuel IH]; intros w pos out Hinv Hfuel; [lia|].
  pose proof Hinv as [Hi Ho Hs Hd].
  erewrite bind_val by (eapply read_step; eauto).
  destruct (drop pos content) as [|b0 [|b1 [|b2 [|b3 rest]]]] eqn:E.
  - (* end of file *)
    eexists. split; [reflexivity|]. split.
    + rewrite app_nil_r. eapply inv_set_in, Hinv.
    + apply frame_set_in.
  - (* one trailing byte *)
    eexists. split; [reflexivity|]. split.
    + rewrite app_nil_r. eapply inv_set_in, Hinv.
    + apply frame_set_in.
  - eexists. split; [reflexivity|]. split.
    + rewrite app_nil_r. eapply inv_set_in, Hinv.
    + apply frame_set_in.
  - eexists. split; [reflexivity|]. split.
    + rewrite app_nil_r. eapply inv_set_in, Hinv.
    + apply frame_set_in.
  - (* a complete word *)
    change (take 4 (b0 :: b1 :: b2 :: b3 :: rest)) with [b0; b1; b2; b3].
    set (w1 := set_fds _ w).
    assert (Hinv1 : conv_inv w1 inp outp fi fo (pos + 4) content out)
      by (eapply inv_set_in, Hinv).
    destruct (pack_little_unpack_big b0 b1 b2 b3) as (v & Hu & Hp).
    cbn [Converter.while_data]. rewrite Hu.
    change (Py.lift (inr v)) with (mret (M := M) v). rewrite bind_ret.
    rewrite Hp.
    change (Py.lift (inr [b3; b2; b1; b0]))
      with (mret (M := M) [b3; b2; b1; b0]).
    rewrite bind_ret.
    pose proof Hinv1 as [Hi1 Ho1 Hs1 Hd1].
    erewrite bind_val by (eapply write_step; eauto).
    set (w2 := set_fds _ _).
    assert (Hinv2 : conv_inv w2 inp outp fi fo (pos + 4) content
                      (out ++ [b3; b2; b1; b0]))
      by (eapply inv_set_out, Hinv1).
    assert (Hrest : drop (pos + 4) content = rest).
    { rewrite <- drop_drop, E. reflexivity. }
    rewrite length_four_more in Hfuel |- *.
    rewrite Nat.div_add in Hfuel by lia.
    rewrite Nat.Div0.mod_add.
    destruct (IH w2 (pos + 4) (out ++ [b3; b2; b1; b0]) Hinv2)
      as (w' & Hrun & Hinv' & Hfr).
    { rewrite Hrest. lia. }
    rewrite Hrest in Hrun, Hinv'.
    exists w'. split; [exact Hrun|]. split.
    + replace (pos + (length rest + 1 * 4)) with (pos + 4 + length rest)
        by lia.
      cbn [swap_words]. rewrite <- app_assoc in Hinv'. exact Hinv'.
    + eapply frame_trans; [|exact Hfr].
      eapply frame_trans; [apply frame_set_in|apply frame_set_out].
Qed.

End ConverterLoop.

(** ** A whole run of the converter on two distinct paths *)

Lemma two_appended (t t' : list file_obj) a0 b0 a b :
  length t' = length (t ++ [a0; b0]) →
  (∀ j, j ≠ length t → j ≠ S (length t) → t' !! j = (t ++ [a0; b0]) !! j) →
  t' !! length t = Some a →
  t' !! S (length t) = Some b →
  t' = t ++ [a; b].
Proof.
  intros HL Hother Ha Hb. apply list_eq. intros j.
  destruct (decide (j = length t)) as [->|Hj1].
  { rewrite Ha. symmetry. apply list_lookup_middle. reflexivity. }
  destruct (decide (j = S (length t))) as [->|Hj2].
  { rewrite Hb. replace (t ++ [a; b]) with ((t ++ [a]) ++ [b])
      by (rewrite <- app_assoc; reflexivity).
    symmetry. apply list_lookup_middle. rewrite length_app. simpl. lia. }
  rewrite Hother by assumption.
  destruct (decide (j < length t)) as [Hlt|Hge].
  - rewrite !lookup_app_l by assumption. reflexivity.
  - rewrite !lookup_ge_None_2; [reflexivity| |]; rewrite length_app; simpl; lia.
Qed.

Lemma converter_run fuel prog inp outp w content :
  inp ≠ outp →
  files w !! inp = Some content →
  outp ∉ readonly w →
  length content / 4 < fuel →
  ∃ w',
    Converter.main fuel [prog; inp; outp] w
    = (w', if length content mod 4 =? 0 then Val ()
           else Raise StructError)
    ∧ files w' !! outp = Some (swap_words content)
    ∧ (∀ p, p ≠ outp → files w' !! p = files w !! p)
    ∧ stdout w' = stdout w
    ∧ readonly w' = readonly w
    ∧ fds w' = fds w ++ [FileObj inp RB (length content) true;
                          FileObj outp WB (4 * (length content / 4)) true].
Proof.
  intros Hne Hin Hrw Hfuel.
  unfold Converter.main. cbn [length Nat.eqb negb].
  rewrite bind_ret. cbn [Py.argv_at lookup list_lookup]. rewrite bind_ret.
  set (a0 := FileObj inp RB 0 false).
  set (b0 := FileObj outp WB 0 false).
  set (wa := set_fds (λ t, t ++ [a0]) w).
  erewrite (bind_val (Py.open inp RB) _ w wa (length (fds w)))
    by (unfold Py.open; rewrite Hin; reflexivity).
  rewrite bind_ret.
  set (wb := set_fds (λ t, t ++ [b0]) (set_files (insert outp []) wa)).
  erewrite (bind_val (Py.open outp WB) _ wa wb (length (fds wa)))
    by (unfold Py.open; rewrite decide_False by exact Hrw; reflexivity).
  assert (Hfds : fds wb = fds w ++ [a0; b0]).
  { simpl. rewrite <- app_assoc. reflexivity. }
  assert (Hfo : length (fds wa) = S (length (fds w))).
  { simpl. rewrite length_app. simpl. lia. }
  rewrite Hfo.
  assert (Hinv : conv_inv wb inp outp (length (fds w)) (S (length (fds w)))
                   0 content []).
  { split.
    - rewrite Hfds. apply list_lookup_middle. reflexivity.
    - rewrite <- Hfo. simpl. apply list_lookup_middle. reflexivity.
    - simpl. rewrite lookup_insert_ne by auto. exact Hin.
    - simpl. apply lookup_insert_eq. }
  destruct (read_loop_spec inp outp (length (fds w)) (S (length (fds w)))
              content Hne (n_Sn _) fuel wb 0 [] Hinv Hfuel)
    as (w1 & Hrun & Hinv1 & Hfr).
  change (drop 0 content) with content in Hrun, Hinv1.
  cbn [app Nat.add] in Hinv1.
  pose proof Hinv1 as [Hi1 Ho1 Hs1 Hd1].
  pose proof Hfr as [R1 S1 L1 D1 F1].
  set (a1 := FileObj inp RB (length content) true).
  set (b1 := FileObj outp WB (length (swap_words content)) true).
  set (w2 := set_fds (insert (length (fds w)) a1) w1).
  set (w3 := set_fds (insert (S (length (fds w))) b1) w2).
  assert (Hfin : (Py.close (length (fds w)) ≫= λ _,
                     Py.close (S (length (fds w)))) w1 = (w3, Val ())).
  { rewrite (bind_val _ _ w1 w2 ()) by (eapply close_step, Hi1).
    eapply close_step.
    simpl. rewrite list_lookup_insert_ne by lia. exact Ho1. }
  exists w3. split.
  { eapply try_finally_done; [exact Hrun| |exact Hfin].
    destruct (length content mod 4 =? 0); discriminate. }
  split; [exact Hd1|].
  split.
  { intros p Hp. simpl. rewrite F1 by exact Hp. simpl.
    apply lookup_insert_ne. auto. }
  split; [simpl; rewrite S1; reflexivity|].
  split; [simpl; rewrite R1; reflexivity|].
  rewrite <- swap_words_length.
  apply two_appended with (a0 := a0) (b0 := b0).
  - simpl. rewrite !length_insert, L1, Hfds. reflexivity.
  - intros j Hj1 Hj2. simpl. rewrite !list_lookup_insert_ne by auto.
    rewrite D1, Hfds by auto. reflexivity.
  - simpl. rewrite list_lookup_insert_ne by lia.
    apply list_lookup_insert_eq. apply lookup_lt_Some in Hi1. exact Hi1.
  - simpl. apply list_lookup_insert_eq. rewrite length_insert.
    apply lookup_lt_Some in Ho1. exact Ho1.
Qed.

(** ** Standard output *)

Lemma append_cons c (s t : string) : String c s +:+ t = String c (s +:+ t).
Proof. reflexivity. Qed.

Lemma append_nil_r (s : string) : s +:+ EmptyString = s.
Proof.
  induction s as [|c s IH]; [reflexivity|].
  rewrite append_cons, IH. reflexivity.
Qed.

Lemma append_assoc (s t u : string) : (s +:+ t) +:+ u = s +:+ (t +:+ u).
Proof.
  induction s as [|c s IH]; [reflexivity|].
  rewrite !append_cons, IH. reflexivity.
Qed.

Lemma count_lines_app (s t : string) :
  count_lines (s +:+ t) = count_lines s + count_lines t.
Proof.
  induction s as [|c s IH]; [reflexivity|].
  rewrite append_cons. cbn [count_lines].
  destruct (Ascii.eqb c "010"); rewrite IH; reflexivity.
Qed.

(** ** The dumper's loop *)

Lemma body_word fd path ending w pos content b0 b1 b2 b3 rest :
  fds w !! fd = Some (FileObj path RB pos false) →
  files w !! path = Some content →
  drop pos content = b0 :: b1 :: b2 :: b3 :: rest →
  ∃ v, Struct.unpack_I Struct.Little [b0; b1; b2; b3] = inr v
     ∧ Dumper.body fd ending w
       = (set_stdout (λ out, out +:+ (py_str v +:+ ending))
            (set_fds (insert fd (FileObj path RB (pos + 4) false)) w),
          Val Py.Next).
Proof.
  intros Hfd Hf E. eexists. split; [reflexivity|].
  unfold Dumper.body, Py.try_except_struct.
  unfold mbind at 1. unfold M_bind at 1.
  erewrite bind_val by (eapply read_step; eauto).
  rewrite E. reflexivity.
Qed.

Lemma body_short fd path ending w pos content :
  fds w !! fd = Some (FileObj path RB pos false) →
  files w !! path = Some content →
  length (drop pos content) < 4 →
  Dumper.body fd ending w
  = (set_fds (insert fd (FileObj path RB
                           (pos + length (drop pos content)) false)) w,
     Val Py.Break).
Proof.
  intros Hfd Hf Hshort.
  unfold Dumper.body, Py.try_except_struct.
  unfold mbind at 1. unfold M_bind at 1.
  erewrite bind_val by (eapply read_step; eauto).
  rewrite take_ge by lia.
  unfold mbind at 1. unfold M_bind at 1.
  rewrite unpack_I_short by lia. reflexivity.
Qed.

Lemma word_values_short o (bs : list byte) :
  length bs < 4 → word_values o bs = [].
Proof.
  destruct bs as [|b0 [|b1 [|b2 [|b3 rest]]]]; simpl; try reflexivity. lia.
Qed.

Lemma word_values_cons o b0 b1 b2 b3 rest :
  ∃ v, Struct.unpack_I o [b0; b1; b2; b3] = inr v
     ∧ word_values o (b0 :: b1 :: b2 :: b3 :: rest) = v :: word_values o rest.
Proof. destruct o; eexists; split; reflexivity. Qed.

(** [n] passes over a file object standing at [pos]: the first [n] complete
    words from there are printed; a short read ends the loop quietly. *)
Lemma dump_loop_spec fd path ending content n : ∀ w pos,
  fds w !! fd = Some (FileObj path RB pos false) →
  files w !! path = Some content →
  ∃ w',
    Py.for_range n (Dumper.body fd ending) w = (w', Val ())
    ∧ stdout w'
      = stdout w
        +:+ render ending
              (take n (word_values Struct.Little (drop pos content)))
    ∧ files w' = files w
    ∧ readonly w' = readonly w
    ∧ length (fds w') = length (fds w)
    ∧ (∀ j, j ≠ fd → fds w' !! j = fds w !! j)
    ∧ fds w' !! fd
      = Some (FileObj path RB
                (pos + min (4 * n) (length (drop pos content))) false).
Proof.
  induction n as [|n IH]; intros w pos Hfd Hf.
  { exists w. simpl. rewrite append_nil_r, Nat.add_0_r. auto 10. }
  pose proof (lookup_lt_Some _ _ _ Hfd) as Hlt.
  destruct (decide (length (drop pos content) < 4)) as [Hshort|Hlong].
  - (* short read: break *)
    cbn [Py.for_range].
    erewrite bind_val by (eapply body_short; eauto).
    eexists. split; [reflexivity|].
    rewrite word_values_short by exact Hshort.
    rewrite take_nil. change (render ending []) with EmptyString.
    rewrite append_nil_r. cbn [files readonly fds stdout set_fds].
    repeat split.
    + apply length_insert.
    + intros j Hj. apply list_lookup_insert_ne. auto.
    + rewrite list_lookup_insert_eq by exact Hlt.
      do 2 f_equal. lia.
  - (* a complete word *)
    destruct (drop pos content) as [|b0 [|b1 [|b2 [|b3 rest]]]] eqn:E;
      try (simpl in Hlong; lia).
    destruct (body_word fd path ending w pos content b0 b1 b2 b3 rest
                Hfd Hf E) as (v & Hu & Hbody).
    cbn [Py.for_range]. erewrite bind_val by exact Hbody.
    set (w1 := set_stdout _ _).
    destruct (IH w1 (pos + 4)) as (w' & Hrun & Hout & Hfiles & Hro & Hlen
                                   & Hother & Hpos).
    { simpl. apply list_lookup_insert_eq. exact Hlt. }
    { exact Hf. }
    assert (Hrest : drop (pos + 4) content = rest)
      by (rewrite <- drop_drop, E; reflexivity).
    rewrite Hrest in Hout, Hpos.
    exists w'. split; [exact Hrun|].
    destruct (word_values_cons Struct.Little b0 b1 b2 b3 rest)
      as (v' & Hu' & ->).
    assert (v' = v) as -> by congruence.
    split.
    { rewrite Hout. simpl. rewrite append_assoc. reflexivity. }
    split; [exact Hfiles|]. split; [exact Hro|].
    split; [rewrite Hlen; simpl; apply length_insert|].
    split.
    { intros j Hj. rewrite Hother by exact Hj. simpl.
      apply list_lookup_insert_ne. auto. }
    rewrite Hpos. do 2 f_equal. rewrite length_four_more. lia.
Qed.

(** ** A whole run of the dumper *)

Lemma one_appended (t t' : list file_obj) a0 a :
  length t' = length (t ++ [a0]) →
  (∀ j, j ≠ length t → t' !! j = (t ++ [a0]) !! j) →
  t' !! length t = Some a →
  t' = t ++ [a].
Proof.
  intros HL Hother Ha. apply list_eq. intros j.
  destruct (decide (j = length t)) as [->|Hj].
  { rewrite Ha. symmetry. apply list_lookup_middle. reflexivity. }
  rewrite Hother by assumption.
  destruct (decide (j < length t)) as [Hlt|Hge].
  - rewrite !lookup_app_l by assumption. reflexivity.
  - rewrite !lookup_ge_None_2; [reflexivity| |]; rewrite length_app; simpl; lia.
Qed.

(** The separator is [args[2]] when present, a newline otherwise; [env]
    is what happens to the file system between the size query and the
    first read. *)
Lemma dumper_run env prog filename rest w content content' :
  files w !! filename = Some content →
  env (files w) !! filename = Some content' →
  ∃ w',
    Dumper.run env (prog :: filename :: rest) w = (w', Val ())
    ∧ stdout w'
      = stdout w
        +:+ render (default nl (head rest))
              (take (length content / 4)
                 (word_values Struct.Little content'))
    ∧ files w' = env (files w)
    ∧ readonly w' = readonly w
    ∧ fds w'
      = fds w ++ [FileObj filename RB
                    (min (4 * (length content / 4)) (length content'))
                    false].
Proof.
  intros Hf Hf'.
  set (a0 := FileObj filename RB 0 false).
  set (wa := set_fds (λ t, t ++ [a0]) w).
  set (wb := set_files env wa).
  assert (Hfd : fds wb !! length (fds w) = Some a0)
    by (simpl; apply list_lookup_middle; reflexivity).
  destruct (dump_loop_spec (length (fds w)) filename
              (default nl (head rest)) content' (length content / 4)
              wb 0 Hfd Hf')
    as (w' & Hrun & Hout & Hfiles & Hro & Hlen & Hother & Hpos).
  change (drop 0 content') with content' in Hout, Hpos.
  exists w'. split.
  { unfold Dumper.run.
    replace (length (prog :: filename :: rest) <? 2) with false
      by reflexivity.
    rewrite bind_ret.
    change (Py.argv_at (prog :: filename :: rest) 1)
      with (mret (M := M) filename).
    rewrite bind_ret.
    assert (Hend : ∀ w0,
               (if 2 <? length (prog :: filename :: rest)
                then Py.argv_at (prog :: filename :: rest) 2
                else mret nl) w0
               = (w0, Val (default nl (head rest))))
      by (intros w0; destruct rest; reflexivity).
    rewrite (bind_val _ _ w w _ (Hend w)).
    rewrite (bind_val (Py.open filename RB) _ w wa (length (fds w)))
      by (unfold Py.open; rewrite Hf; reflexivity).
    rewrite (bind_val (Py.fstat_size (length (fds w))) _ wa wa
               (length content)).
    2:{ unfold Py.fstat_size, Py.contents.
        replace (fds wa !! length (fds w)) with (Some a0)
          by (symmetry; apply list_lookup_middle; reflexivity).
        simpl. rewrite Hf. reflexivity. }
    rewrite (bind_val (Py.interference env) _ wa wb ()) by reflexivity.
    exact Hrun. }
  split; [exact Hout|]. split; [exact Hfiles|]. split; [exact Hro|].
  apply one_appended with (a0 := a0).
  - exact Hlen.
  - intros j Hj. apply Hother, Hj.
  - exact Hpos.
Qed.

(** ** Values of the words of a file *)

Lemma word_values_length o bs : length (word_values o bs) = length bs / 4.
Proof.
  induction bs as [bs IH] using (induction_ltof1 _ (@length byte)).
  unfold ltof in IH.
  destruct bs as [|b0 [|b1 [|b2 [|b3 rest]]]]; try reflexivity.
  destruct (word_values_cons o b0 b1 b2 b3 rest) as (v & _ & ->).
  rewrite length_four_more, Nat.div_add by lia.
  cbn [length]. rewrite IH by (simpl; lia). lia.
Qed.

Lemma word_values_lookup o i : ∀ bs v,
  word_values o bs !! i = Some v →
  Struct.unpack_I o (word_at i bs) = inr v.
Proof.
  unfold word_at.
  induction i as [|i IH]; intros bs v Hv;
    destruct bs as [|b0 [|b1 [|b2 [|b3 rest]]]]; try discriminate Hv;
    destruct (word_values_cons o b0 b1 b2 b3 rest) as (v' & Hu & E);
    rewrite E in Hv.
  - injection Hv as ->. exact Hu.
  - replace (4 * S i) with (4 + 4 * i) by lia. rewrite drop_four_more.
    apply IH. exact Hv.
Qed.

(** Bytes after the last complete word do not contribute. *)
Lemma word_values_take o bs :
  word_values o (take (4 * (length bs / 4)) bs) = word_values o bs.
Proof.
  induction bs as [bs IH] using (induction_ltof1 _ (@length byte)).
  unfold ltof in IH.
  destruct bs as [|b0 [|b1 [|b2 [|b3 rest]]]]; try reflexivity.
  rewrite length_four_more, Nat.div_add by lia.
  replace (4 * (length rest / 4 + 1)) with (4 + 4 * (length rest / 4)) by lia.
  change (take (4 + ?n) (b0 :: b1 :: b2 :: b3 :: rest))
    with (b0 :: b1 :: b2 :: b3 :: take n rest).
  destruct (word_values_cons o b0 b1 b2 b3 rest) as (v & Hu & ->).
  destruct (word_values_cons o b0 b1 b2 b3
              (take (4 * (length rest / 4)) rest)) as (v' & Hu' & ->).
  rewrite IH by (simpl; lia). congruence.
Qed.

Lemma word_values_range o bs :
  Forall (λ v, (0 ≤ v < 2 ^ 32)%Z) (word_values o bs).
Proof.
  apply Forall_lookup. intros i v Hv.
  apply word_values_lookup in Hv. eapply unpack_I_range, Hv.
Qed.

(** ** Usage messages *)

Lemma converter_usage fuel prog args w :
  length args ≠ 2 →
  Converter.main fuel (prog :: args) w
  = (set_stdout
       (λ out, out +:+ (("Usage: " +:+ prog +:+ " <in_file> <out_file>")
                        +:+ nl)) w,
     Raise (SystemExit 1)).
Proof.
  intros Hargs. unfold Converter.main.
  replace (negb (length (prog :: args) =? 3)) with true.
  - reflexivity.
  - symmetry. apply negb_true_iff, Nat.eqb_neq. simpl. lia.
Qed.

Lemma dumper_usage env prog w :
  ∃ w',
    Dumper.run env [prog] w = (w', Raise (SystemExit 1))
    ∧ stdout w'
      = stdout w
        +:+ (("Usage: " +:+ prog +:+ " <filename> [seperator]") +:+ nl)
        +:+ nl
        +:+ ((tab +:+ "Default seperator is newline") +:+ nl)
    ∧ files w' = files w ∧ fds w' = fds w ∧ readonly w' = readonly w.
Proof.
  eexists. split; [reflexivity|]. simpl.
  rewrite !append_assoc. auto.
Qed.

(** ** File objects left behind *)

Lemma converter_run_same fuel prog p w content :
  files w !! p = Some content →
  p ∉ readonly w →
  ∃ w',
    Converter.main fuel [prog; p; p] w = (w', Val ())
    ∧ files w' !! p = Some []
    ∧ fds w' = fds w ++ [FileObj p RB 0 true; FileObj p WB 0 true].
Proof.
  intros Hin Hrw.
  unfold Converter.main. cbn [length Nat.eqb negb].
  rewrite bind_ret. cbn [Py.argv_at lookup list_lookup]. rewrite bind_ret.
  set (a0 := FileObj p RB 0 false).
  set (b0 := FileObj p WB 0 false).
  set (wa := set_fds (λ t, t ++ [a0]) w).
  erewrite (bind_val (Py.open p RB) _ w wa (length (fds w)))
    by (unfold Py.open; rewrite Hin; reflexivity).
  rewrite bind_ret.
  set (wb := set_fds (λ t, t ++ [b0]) (set_files (insert p []) wa)).
  erewrite (bind_val (Py.open p WB) _ wa wb (length (fds wa)))
    by (unfold Py.open; rewrite decide_False by exact Hrw; reflexivity).
  assert (Hfds : fds wb = fds w ++ [a0; b0])
    by (simpl; rewrite <- app_assoc; reflexivity).
  assert (Hfo : length (fds wa) = S (length (fds w)))
    by (simpl; rewrite length_app; simpl; lia).
  rewrite Hfo.
  assert (Hi : fds wb !! length (fds w) = Some a0)
    by (rewrite Hfds; apply list_lookup_middle; reflexivity).
  assert (Ho : fds wb !! S (length (fds w)) = Some b0)
    by (rewrite <- Hfo; simpl; apply list_lookup_middle; reflexivity).
  assert (Hp : files wb !! p = Some []) by (simpl; apply lookup_insert_eq).
  pose proof (lookup_lt_Some _ _ _ Hi) as Hlti.
  pose proof (lookup_lt_Some _ _ _ Ho) as Hlto.
  set (w1 := set_fds (insert (length (fds w)) a0) wb).
  set (a1 := FileObj p RB 0 true).
  set (b1 := FileObj p WB 0 true).
  set (w2 := set_fds (insert (length (fds w)) a1) w1).
  set (w3 := set_fds (insert (S (length (fds w))) b1) w2).
  exists w3. split.
  { apply try_finally_done with (w1 := w1).
    - erewrite bind_val by (eapply read_step; eauto).
      destruct fuel; reflexivity.
    - discriminate.
    - rewrite (bind_val _ _ w1 w2 ()).
      + eapply close_step. simpl. rewrite !list_lookup_insert_ne by lia.
        exact Ho.
      + eapply close_step. simpl. apply list_lookup_insert_eq. exact Hlti. }
  split; [exact Hp|].
  apply two_appended with (a0 := a0) (b0 := b0).
  - simpl. rewrite !length_insert. rewrite <- Hfds. reflexivity.
  - intros j Hj1 Hj2. simpl. rewrite !list_lookup_insert_ne by auto.
    rewrite <- Hfds. reflexivity.
  - simpl. rewrite list_lookup_insert_ne by lia.
    apply list_lookup_insert_eq. rewrite length_insert. exact Hlti.
  - simpl. apply list_lookup_insert_eq. rewrite !length_insert. exact Hlto.
Qed.

(** When the output cannot be opened, the input's file object has already
    been created outside the [try] and is never closed. *)
Lemma converter_output_unwritable fuel prog inp outp w content :
  files w !! inp = Some content →
  outp ∈ readonly w →
  ∃ w',
    Converter.main fuel [prog; inp; outp] w = (w', Raise PermissionError)
    ∧ fds w' = fds w ++ [FileObj inp RB 0 false].
Proof.
  intros Hin Hro.
  exists (set_fds (λ t, t ++ [FileObj inp RB 0 false]) w).
  split; [|reflexivity].
  unfold Converter.main. cbn [length Nat.eqb negb].
  rewrite bind_ret. cbn [Py.argv_at lookup list_lookup]. rewrite bind_ret.
  erewrite (bind_val (Py.open inp RB) _ w _ (length (fds w)))
    by (unfold Py.open; rewrite Hin; reflexivity).
  rewrite bind_ret.
  apply bind_raise.
  unfold Py.open. rewrite decide_True by exact Hro. reflexivity.
Qed.

(** * The claims *)

(** ** Converter *)

(** C1. Converter contract: on an input file whose length is a multiple of
    4 (read from one path, written to another that can be opened for
    writing), a run ends normally and leaves an output file of exactly the
    input's length; for every word index [i] the [i]-th output word decoded
    as little-endian equals the [i]-th input word decoded as big-endian,
    and is the byte reversal of that input word. *)
Theorem converter_contract fuel prog inp outp w content :
  inp ≠ outp →
  files w !! inp = Some content →
  outp ∉ readonly w →
  length content mod 4 = 0 →
  length content / 4 < fuel →
  ∃ w' out,
    Converter.main fuel [prog; inp; outp] w = (w', Val ())
    ∧ files w' !! outp = Some out
    ∧ length out = length content
    ∧ ∀ i, i < length content / 4 →
        ∃ v, Struct.unpack_I Struct.Big (word_at i content) = inr v
           ∧ Struct.unpack_I Struct.Little (word_at i out) = inr v
           ∧ word_at i out = reverse (word_at i content).
Proof.
  intros Hne Hin Hrw Hmod Hfuel.
  destruct (converter_run fuel prog inp outp w content Hne Hin Hrw Hfuel)
    as (w' & Hrun & Hout & _).
  rewrite Hmod in Hrun.
  exists w', (swap_words content). split; [exact Hrun|].
  split; [exact Hout|]. split; [apply swap_words_exact, Hmod|].
  intros i Hi.
  rewrite swap_words_word_at by exact Hi.
  destruct (word_at_four i content Hi) as (b0 & b1 & b2 & b3 & ->).
  eexists. split; [reflexivity|]. split; [|reflexivity].
  apply unpack_little_rev_big.
Qed.

Lemma converter_contract_witness :
  "in.bin" ≠ "out.bin"
  ∧ files sample_world !! "in.bin"
    = Some [x00; x00; x00; x01; x12; x34; x56; x78]
  ∧ ("out.bin" ∉ readonly sample_world)
  ∧ ∃ w' out,
      Converter.main 3 ["convert_to_little.py"; "in.bin"; "out.bin"]
        sample_world = (w', Val ())
      ∧ files w' !! "out.bin" = Some out
      ∧ length out = 8
      ∧ ∀ i, i < 2 →
          ∃ v, Struct.unpack_I Struct.Big
                 (word_at i [x00; x00; x00; x01; x12; x34; x56; x78]) = inr v
             ∧ Struct.unpack_I Struct.Little (word_at i out) = inr v
             ∧ word_at i out
               = reverse (word_at i [x00; x00; x00; x01; x12; x34; x56; x78]).
Proof.
  split; [discriminate|]. split; [reflexivity|].
  split; [apply not_elem_of_empty|].
  apply (converter_contract 3 "convert_to_little.py" "in.bin" "out.bin"
           sample_world [x00; x00; x00; x01; x12; x34; x56; x78]).
  - discriminate.
  - reflexivity.
  - apply not_elem_of_empty.
  - reflexivity.
  - simpl. lia.
Defined.

(** C3. Round trip: converting a file whose length is a multiple of 4 and
    then converting the result again reproduces the original bytes. *)
Theorem converter_round_trip fuel prog a b c w content :
  a ≠ b → b ≠ c →
  files w !! a = Some content →
  b ∉ readonly w → c ∉ readonly w →
  length content mod 4 = 0 →
  length content / 4 < fuel →
  ∃ w1 w2,
    Converter.main fuel [prog; a; b] w = (w1, Val ())
    ∧ Converter.main fuel [prog; b; c] w1 = (w2, Val ())
    ∧ files w2 !! c = Some content.
Proof.
  intros Hab Hbc Hin Hb Hc Hmod Hfuel.
  destruct (converter_run fuel prog a b w content Hab Hin Hb Hfuel)
    as (w1 & Hrun1 & Hout1 & _ & _ & Hro1 & _).
  rewrite Hmod in Hrun1.
  pose proof (swap_words_exact content Hmod) as Hlen.
  destruct (converter_run fuel prog b c w1 (swap_words content) Hbc Hout1)
    as (w2 & Hrun2 & Hout2 & _).
  { rewrite Hro1. exact Hc. }
  { rewrite Hlen. exact Hfuel. }
  rewrite Hlen, Hmod in Hrun2.
  rewrite swap_words_involutive in Hout2 by exact Hmod.
  exists w1, w2. auto.
Qed.

Lemma converter_round_trip_witness :
  "in.bin" ≠ "out.bin" ∧ "out.bin" ≠ "back.bin"
  ∧ ∃ w1 w2,
      Converter.main 3 ["convert_to_little.py"; "in.bin"; "out.bin"]
        sample_world = (w1, Val ())
      ∧ Converter.main 3 ["convert_to_little.py"; "out.bin"; "back.bin"] w1
        = (w2, Val ())
      ∧ files w2 !! "back.bin"
        = Some [x00; x00; x00; x01; x12; x34; x56; x78].
Proof.
  split; [discriminate|]. split; [discriminate|].
  apply (converter_round_trip 3 "convert_to_little.py"
           "in.bin" "out.bin" "back.bin" sample_world
           [x00; x00; x00; x01; x12; x34; x56; x78]).
  - discriminate.
  - discriminate.
  - reflexivity.
  - apply not_elem_of_empty.
  - apply not_elem_of_empty.
  - reflexivity.
  - simpl. lia.
Defined.

(** C4. Fail-fast on truncated input: when the input length [N] is not a
    multiple of 4, the run ends with an uncaught [struct.error] (exit
    status 1, not 0) and the output file holds exactly the [N / 4] words
    converted before the partial chunk was met. *)
Theorem converter_truncated_input fuel prog inp outp w content :
  inp ≠ outp →
  files w !! inp = Some content →
  outp ∉ readonly w →
  length content mod 4 ≠ 0 →
  length content / 4 < fuel →
  ∃ w' out,
    Converter.main fuel [prog; inp; outp] w = (w', Raise StructError)
    ∧ exit_status (Raise (A := unit) StructError) = Some 1%Z
    ∧ files w' !! outp = Some out
    ∧ length out = 4 * (length content / 4)
    ∧ ∀ i, i < length content / 4 →
        ∃ v, Struct.unpack_I Struct.Big (word_at i content) = inr v
           ∧ Struct.unpack_I Struct.Little (word_at i out) = inr v
           ∧ word_at i out = reverse (word_at i content).
Proof.
  intros Hne Hin Hrw Hmod Hfuel.
  destruct (converter_run fuel prog inp outp w content Hne Hin Hrw Hfuel)
    as (w' & Hrun & Hout & _).
  apply Nat.eqb_neq in Hmod. rewrite Hmod in Hrun.
  exists w', (swap_words content). split; [exact Hrun|].
  split; [reflexivity|]. split; [exact Hout|].
  split; [apply swap_words_length|].
  intros i Hi.
  rewrite swap_words_word_at by exact Hi.
  destruct (word_at_four i content Hi) as (b0 & b1 & b2 & b3 & ->).
  eexists. split; [reflexivity|]. split; [|reflexivity].
  apply unpack_little_rev_big.
Qed.

Lemma converter_truncated_input_witness :
  length [x01; x00; x00; x00; x02; x00] mod 4 ≠ 0
  ∧ ∃ w' out,
      Converter.main 2 ["convert_to_little.py"; "six.bin"; "out.bin"]
        sample_world = (w', Raise StructError)
      ∧ exit_status (Raise (A := unit) StructError) = Some 1%Z
      ∧ files w' !! "out.bin" = Some out
      ∧ length out = 4
      ∧ ∀ i, i < 1 →
          ∃ v, Struct.unpack_I Struct.Big
                 (word_at i [x01; x00; x00; x00; x02; x00]) = inr v
             ∧ Struct.unpack_I Struct.Little (word_at i out) = inr v
             ∧ word_at i out
               = reverse (word_at i [x01; x00; x00; x00; x02; x00]).
Proof.
  split; [discriminate|].
  apply (converter_truncated_input 2 "convert_to_little.py"
           "six.bin" "out.bin" sample_world
           [x01; x00; x00; x00; x02; x00]).
  - discriminate.
  - reflexivity.
  - apply not_elem_of_empty.
  - discriminate.
  - simpl. lia.
Defined.

(** ** Both scripts *)

(** C6 (as amended). Usage enforcement: the converter called with anything
    but two arguments, and the dumper called with none, print a usage
    message on standard output and exit with status 1 without opening or
    changing any file.  The dumper's message is three printed lines: the
    usage line, an empty line, and a tab-indented note on the default
    separator. *)
Theorem usage_enforcement fuel prog args w :
  length args ≠ 2 →
  (∃ w',
     Converter.main fuel (prog :: args) w = (w', Raise (SystemExit 1))
     ∧ exit_status (Raise (A := unit) (SystemExit 1)) = Some 1%Z
     ∧ stdout w'
       = stdout w
         +:+ (("Usage: " +:+ prog +:+ " <in_file> <out_file>") +:+ nl)
     ∧ files w' = files w ∧ fds w' = fds w)
  ∧ (∃ w',
       Dumper.main [prog] w = (w', Raise (SystemExit 1))
       ∧ stdout w'
         = stdout w
           +:+ (("Usage: " +:+ prog +:+ " <filename> [seperator]") +:+ nl)
           +:+ nl
           +:+ ((tab +:+ "Default seperator is newline") +:+ nl)
       ∧ count_lines (stdout w')
         = count_lines (stdout w) + count_lines prog + 3
       ∧ files w' = files w ∧ fds w' = fds w).
Proof.
  intros Hargs. split.
  - eexists. split; [apply converter_usage, Hargs|]. auto.
  - destruct (dumper_usage id prog w) as (w' & Hrun & Hout & Hf & Hd & _).
    exists w'. split; [exact Hrun|]. split; [exact Hout|].
    split; [|auto].
    rewrite Hout, !count_lines_app. simpl. lia.
Qed.

Lemma usage_enforcement_witness :
  length ["only_one_path.bin"] ≠ 2
  ∧ (∃ w',
       Converter.main 0 ["convert_to_little.py"; "only_one_path.bin"]
         sample_world = (w', Raise (SystemExit 1))
       ∧ stdout w'
         = ("Usage: convert_to_little.py <in_file> <out_file>" +:+ nl)
       ∧ fds w' = [])
  ∧ (∃ w',
       Dumper.main ["read_binary.py"] sample_world
       = (w', Raise (SystemExit 1))
       ∧ count_lines (stdout w') = 3
       ∧ fds w' = []).
Proof.
  split; [discriminate|].
  destruct (usage_enforcement 0 "convert_to_little.py"
              ["only_one_path.bin"] sample_world)
    as [(w1 & H1 & _ & H1o & _ & H1d) _]; [discriminate|].
  destruct (usage_enforcement 0 "read_binary.py"
              ["only_one_path.bin"] sample_world)
    as [_ (w2 & H2 & _ & H2c & _ & H2d)]; [discriminate|].
  split.
  - exists w1. split; [exact H1|]. split; [exact H1o|exact H1d].
  - exists w2. split; [exact H2|]. split; [exact H2c|exact H2d].
Defined.

(** C6, the claim as stated fails: the dumper's usage message is not two
    lines but three. *)
Lemma dumper_usage_not_two_lines :
  ∃ w',
    Dumper.main ["read_binary.py"] sample_world = (w', Raise (SystemExit 1))
    ∧ stdout w'
      = "Usage: read_binary.py <filename> [seperator]" +:+ nl
        +:+ nl
        +:+ tab +:+ "Default seperator is newline" +:+ nl
    ∧ count_lines (stdout w') = 3
    ∧ count_lines (stdout w') ≠ 2.
Proof.
  eexists. split; [reflexivity|]. split; [reflexivity|].
  split; [reflexivity|]. discriminate.
Qed.

(** What the two scripts have done with their file objects when their last
    statement has run: the converter, once both files are open, has closed
    both, after a normal loop and after [struct.error] alike; the dumper has
    closed nothing. *)
Lemma file_objects_at_script_end fuel cprog dprog inp outp filename rest w content
    dumped :
  files w !! inp = Some content →
  outp ∉ readonly w →
  length content / 4 < fuel →
  files w !! filename = Some dumped →
  (∃ w' r pi po,
     Converter.main fuel [cprog; inp; outp] w = (w', r)
     ∧ (r = Val () ∨ r = Raise StructError)
     ∧ fds w' = fds w ++ [FileObj inp RB pi true; FileObj outp WB po true]
     ∧ (all_closed w → all_closed w'))
  ∧ (∃ w',
       Dumper.main (dprog :: filename :: rest) w = (w', Val ())
       ∧ fds w'
         = fds w ++ [FileObj filename RB (4 * (length dumped / 4)) false]
       ∧ ¬ all_closed w').
Proof.
  intros Hin Hrw Hfuel Hdump. split.
  - assert (∃ w' r pi po,
              Converter.main fuel [cprog; inp; outp] w = (w', r)
              ∧ (r = Val () ∨ r = Raise StructError)
              ∧ fds w' = fds w ++ [FileObj inp RB pi true;
                                    FileObj outp WB po true])
      as (w' & r & pi & po & Hrun & Hr & Hfds).
    { destruct (decide (inp = outp)) as [<-|Hne].
      - destruct (converter_run_same fuel cprog inp w content Hin Hrw)
          as (w' & Hrun & _ & Hfds).
        exists w', (Val ()), 0, 0. auto.
      - destruct (converter_run fuel cprog inp outp w content
                    Hne Hin Hrw Hfuel)
          as (w' & Hrun & _ & _ & _ & _ & Hfds).
        eexists w', _, _, _. split; [exact Hrun|]. split; [|exact Hfds].
        destruct (length content mod 4 =? 0); auto. }
    exists w', r, pi, po. repeat split; try assumption.
    unfold all_closed. rewrite Hfds. intros Hall.
    apply Forall_app. split; [exact Hall|].
    repeat constructor.
  - destruct (dumper_run id dprog filename rest w dumped dumped Hdump Hdump)
      as (w' & Hrun & _ & _ & _ & Hfds).
    replace (min (4 * (length dumped / 4)) (length dumped))
      with (4 * (length dumped / 4)) in Hfds
      by (pose proof (Nat.div_mod_eq (length dumped) 4); lia).
    exists w'. split; [exact Hrun|]. split; [exact Hfds|].
    unfold all_closed. rewrite Hfds. intros Hall.
    apply Forall_app in Hall as [_ Hall].
    apply Forall_cons in Hall as [Hopen _]. discriminate Hopen.
Qed.

(** ** Dumper *)

(** C2. Word count and truncation tolerance: on a file of [N] bytes the
    dumper ends normally (exit status 0) having printed exactly [N / 4]
    values, the [i]-th being the little-endian value of the [i]-th 4-byte
    word, whatever [N mod 4] is; on a 6-byte file it prints exactly one
    value, that of the first four bytes. *)
Theorem dumper_word_count prog filename rest w content :
  files w !! filename = Some content →
  ∃ w' vs,
    Dumper.main (prog :: filename :: rest) w = (w', Val ())
    ∧ exit_status (Val ()) = Some 0%Z
    ∧ stdout w' = stdout w +:+ render (default nl (head rest)) vs
    ∧ length vs = length content / 4
    ∧ (∀ i v, vs !! i = Some v →
         Struct.unpack_I Struct.Little (word_at i content) = inr v)
    ∧ (∀ b0 b1 b2 b3 b4 b5, content = [b0; b1; b2; b3; b4; b5] →
         ∃ v, Struct.unpack_I Struct.Little [b0; b1; b2; b3] = inr v
            ∧ vs = [v]
            ∧ stdout w' = stdout w +:+ (py_str v +:+ default nl (head rest))).
Proof.
  intros Hf.
  destruct (dumper_run id prog filename rest w content content Hf Hf)
    as (w' & Hrun & Hout & _).
  rewrite take_ge in Hout by (rewrite word_values_length; lia).
  exists w', (word_values Struct.Little content).
  split; [exact Hrun|]. split; [reflexivity|]. split; [exact Hout|].
  split; [apply word_values_length|].
  split; [intros i v; apply word_values_lookup|].
  intros b0 b1 b2 b3 b4 b5 ->.
  eexists. split; [reflexivity|]. split; [reflexivity|].
  rewrite Hout. cbn [word_values Struct.unpack_I render foldr].
  rewrite append_nil_r. reflexivity.
Qed.

Lemma dumper_word_count_witness :
  ∃ w' vs,
    Dumper.main ["read_binary.py"; "six.bin"] sample_world = (w', Val ())
    ∧ exit_status (Val ()) = Some 0%Z
    ∧ stdout w' = stdout sample_world +:+ render nl vs
    ∧ length vs = 1
    ∧ (∀ i v, vs !! i = Some v →
         Struct.unpack_I Struct.Little
           (word_at i [x01; x00; x00; x00; x02; x00]) = inr v)
    ∧ (∀ b0 b1 b2 b3 b4 b5,
         [x01; x00; x00; x00; x02; x00] = [b0; b1; b2; b3; b4; b5] →
         ∃ v, Struct.unpack_I Struct.Little [b0; b1; b2; b3] = inr v
            ∧ vs = [v]
            ∧ stdout w' = stdout sample_world +:+ (py_str v +:+ nl)).
Proof.
  apply (dumper_word_count "read_binary.py" "six.bin" [] sample_world
           [x01; x00; x00; x00; x02; x00]).
  reflexivity.
Defined.

(** C7. Separator passthrough: the dumper writes, for each decoded word in
    file order, its decimal value followed by the separator given as
    [args[2]], and nothing else; on the 8 bytes [01 00 00 00 02 00 00 00]
    with separator [,] standard output is exactly [1,2,]. *)
Theorem separator_passthrough prog filename sep rest w content :
  files w !! filename = Some content →
  ∃ w',
    Dumper.main (prog :: filename :: sep :: rest) w = (w', Val ())
    ∧ stdout w'
      = stdout w +:+ render sep (word_values Struct.Little content)
    ∧ (content = [x01; x00; x00; x00; x02; x00; x00; x00] →
       sep = "," → stdout w = EmptyString → stdout w' = "1,2,").
Proof.
  intros Hf.
  destruct (dumper_run id prog filename (sep :: rest) w content content
              Hf Hf) as (w' & Hrun & Hout & _).
  rewrite take_ge in Hout by (rewrite word_values_length; lia).
  exists w'. split; [exact Hrun|]. split; [exact Hout|].
  intros -> -> Hempty. rewrite Hout, Hempty. reflexivity.
Qed.

Lemma separator_passthrough_witness :
  ∃ w',
    Dumper.main ["read_binary.py"; "words.bin"; ","] sample_world
    = (w', Val ())
    ∧ stdout w' = "1,2,".
Proof.
  destruct (separator_passthrough "read_binary.py" "words.bin" "," []
              sample_world [x01; x00; x00; x00; x02; x00; x00; x00])
    as (w' & Hrun & _ & Hout); [reflexivity|].
  exists w'. split; [exact Hrun|]. apply Hout; reflexivity.
Defined.

(** C9. Trailing bytes do not influence the dumper: two files with the same
    number of complete words and the same bytes in those words give the
    same standard output under the same arguments, and in each run the
    file object stops at the end of the last complete word, so the bytes
    after it are never read. *)
Theorem trailing_bytes_ignored prog filename rest w1 w2 c1 c2 :
  files w1 !! filename = Some c1 →
  files w2 !! filename = Some c2 →
  stdout w1 = stdout w2 →
  length c1 / 4 = length c2 / 4 →
  take (4 * (length c1 / 4)) c1 = take (4 * (length c2 / 4)) c2 →
  ∃ w1' w2',
    Dumper.main (prog :: filename :: rest) w1 = (w1', Val ())
    ∧ Dumper.main (prog :: filename :: rest) w2 = (w2', Val ())
    ∧ stdout w1' = stdout w2'
    ∧ fds w1' = fds w1 ++ [FileObj filename RB (4 * (length c1 / 4)) false]
    ∧ fds w2' = fds w2 ++ [FileObj filename RB (4 * (length c2 / 4)) false].
Proof.
  intros Hf1 Hf2 Hout Hwords Hprefix.
  destruct (dumper_run id prog filename rest w1 c1 c1 Hf1 Hf1)
    as (w1' & Hrun1 & Hout1 & _ & _ & Hfds1).
  destruct (dumper_run id prog filename rest w2 c2 c2 Hf2 Hf2)
    as (w2' & Hrun2 & Hout2 & _ & _ & Hfds2).
  pose proof (Nat.div_mod_eq (length c1) 4).
  pose proof (Nat.div_mod_eq (length c2) 4).
  rewrite Nat.min_l in Hfds1, Hfds2 by lia.
  rewrite take_ge in Hout1, Hout2 by (rewrite word_values_length; lia).
  exists w1', w2'. repeat split; try assumption.
  rewrite Hout1, Hout2, Hout.
  rewrite <- (word_values_take _ c1), <- (word_values_take _ c2), Hprefix.
  reflexivity.
Qed.

Lemma trailing_bytes_ignored_witness :
  ∃ w1' w2',
    Dumper.main ["read_binary.py"; "six.bin"] sample_world = (w1', Val ())
    ∧ Dumper.main ["read_binary.py"; "six.bin"]
        (World (<["six.bin" := [x01; x00; x00; x00; xff]]> sample_fs)
           ∅ [] EmptyString) = (w2', Val ())
    ∧ stdout w1' = stdout w2'
    ∧ fds w1' = fds sample_world ++ [FileObj "six.bin" RB 4 false]
    ∧ fds w2' = [] ++ [FileObj "six.bin" RB 4 false].
Proof.
  apply (trailing_bytes_ignored "read_binary.py" "six.bin" []
           sample_world
           (World (<["six.bin" := [x01; x00; x00; x00; xff]]> sample_fs)
              ∅ [] EmptyString)
           [x01; x00; x00; x00; x02; x00] [x01; x00; x00; x00; xff]);
    reflexivity.
Defined.

(** C10. Printed value range: every value the dumper prints is an unsigned
    32-bit integer, [0 <= v < 2^32], and is the little-endian reading
    [b0 + b1 * 2^8 + b2 * 2^16 + b3 * 2^24] of the four bytes of the word
    it was decoded from. *)
Theorem printed_values_range prog filename rest w content :
  files w !! filename = Some content →
  ∃ w' vs,
    Dumper.main (prog :: filename :: rest) w = (w', Val ())
    ∧ stdout w' = stdout w +:+ render (default nl (head rest)) vs
    ∧ length vs = length content / 4
    ∧ ∀ i v, vs !! i = Some v →
        (0 ≤ v < 2 ^ 32)%Z
        ∧ ∃ b0 b1 b2 b3,
            word_at i content = [b0; b1; b2; b3]
            ∧ v = (byte_val b0 + byte_val b1 * 2 ^ 8
                   + byte_val b2 * 2 ^ 16 + byte_val b3 * 2 ^ 24)%Z.
Proof.
  intros Hf.
  destruct (dumper_run id prog filename rest w content content Hf Hf)
    as (w' & Hrun & Hout & _).
  rewrite take_ge in Hout by (rewrite word_values_length; lia).
  exists w', (word_values Struct.Little content).
  split; [exact Hrun|]. split; [exact Hout|].
  split; [apply word_values_length|].
  intros i v Hv.
  pose proof (lookup_lt_Some _ _ _ Hv) as Hi.
  rewrite word_values_length in Hi.
  apply word_values_lookup in Hv.
  split; [eapply unpack_I_range, Hv|].
  destruct (word_at_four i content Hi) as (b0 & b1 & b2 & b3 & E).
  exists b0, b1, b2, b3. split; [exact E|].
  rewrite E in Hv. simpl in Hv. congruence.
Qed.

Lemma printed_values_range_witness :
  ∃ w' vs,
    Dumper.main ["read_binary.py"; "in.bin"] sample_world = (w', Val ())
    ∧ stdout w' = stdout sample_world +:+ render nl vs
    ∧ length vs = 2
    ∧ ∀ i v, vs !! i = Some v →
        (0 ≤ v < 2 ^ 32)%Z
        ∧ ∃ b0 b1 b2 b3,
            word_at i [x00; x00; x00; x01; x12; x34; x56; x78]
            = [b0; b1; b2; b3]
            ∧ v = (byte_val b0 + byte_val b1 * 2 ^ 8
                   + byte_val b2 * 2 ^ 16 + byte_val b3 * 2 ^ 24)%Z.
Proof.
  apply (printed_values_range "read_binary.py" "in.bin" [] sample_world
           [x00; x00; x00; x01; x12; x34; x56; x78]).
  reflexivity.
Defined.

(** * Further properties of the two scripts *)

(** ** Composing preserved relations *)

Section Preserves.

Context (R : world → world → Prop).
Hypothesis R_refl : ∀ w, R w w.
Hypothesis R_trans : ∀ w1 w2 w3, R w1 w2 → R w2 w3 → R w1 w3.

Lemma preserves_ret {A} (a : A) : preserves R (mret a).
Proof. intros w w' r [= <- <-]. apply R_refl. Qed.

Lemma preserves_raise {A} e : preserves R (Py.raise (A := A) e).
Proof. intros w w' r [= <- <-]. apply R_refl. Qed.

Lemma preserves_lift {A} (x : exn + A) : preserves R (Py.lift x).
Proof. destruct x; [apply preserves_raise|apply preserves_ret]. Qed.

Lemma preserves_bind {A B} (m : M A) (k : A → M B) :
  preserves R m → (∀ a, preserves R (k a)) → preserves R (m ≫= k).
Proof.
  intros Hm Hk w w' r H. unfold mbind, M_bind in H.
  destruct (m w) as [w1 [a|e|]] eqn:E.
  - eapply R_trans; [eapply Hm, E|eapply Hk, H].
  - injection H as <- <-. eapply Hm, E.
  - injection H as <- <-. eapply Hm, E.
Qed.

Lemma preserves_try_finally {A} (body : M A) (fin : M unit) :
  preserves R body → preserves R fin →
  preserves R (Py.try_finally body fin).
Proof.
  intros Hb Hf w w' r H. unfold Py.try_finally in H.
  destruct (body w) as [w1 rb] eqn:Eb.
  assert (R w w1) by (eapply Hb, Eb).
  destruct rb as [a|e|]; [| |injection H as <- <-; assumption];
    destruct (fin w1) as [w2 rf] eqn:Ef;
    assert (R w1 w2) by (eapply Hf, Ef);
    destruct rf; injection H as <- <-; eauto.
Qed.

Lemma preserves_try_except {A} (body handler : M A) :
  preserves R body → preserves R handler →
  preserves R (Py.try_except_struct body handler).
Proof.
  intros Hb Hh w w' r H. unfold Py.try_except_struct in H.
  destruct (body w) as [w1 rb] eqn:Eb.
  assert (R w w1) by (eapply Hb, Eb).
  destruct rb as [a|[]|]; try (injection H as <- <-; assumption).
  eapply R_trans; [eassumption|eapply Hh, H].
Qed.

Lemma preserves_for_range n (body : M Py.ctl) :
  preserves R body → preserves R (Py.for_range n body).
Proof.
  intros Hb. induction n as [|n IH]; [apply preserves_ret|].
  cbn [Py.for_range]. apply preserves_bind; [exact Hb|].
  intros []; [exact IH|apply preserves_ret].
Qed.

End Preserves.

(** ** What the dumper's steps leave alone *)

Lemma same_files_refl w : same_files w w.
Proof. reflexivity. Qed.

Lemma same_files_trans w1 w2 w3 :
  same_files w1 w2 → same_files w2 w3 → same_files w1 w3.
Proof. unfold same_files. congruence. Qed.

Lemma same_files_argv_at argv i : preserves same_files (Py.argv_at argv i).
Proof.
  unfold Py.argv_at. destruct (argv !! i);
    [apply preserves_ret|apply preserves_raise]; apply same_files_refl.
Qed.

Lemma same_files_print s e : preserves same_files (Py.print s e).
Proof. intros w w' r [= <- <-]. reflexivity. Qed.

Lemma same_files_open_rb path : preserves same_files (Py.open path RB).
Proof.
  intros w w' r H. unfold Py.open in H.
  destruct (files w !! path); injection H as <- <-; reflexivity.
Qed.

Lemma same_files_fstat fd : preserves same_files (Py.fstat_size fd).
Proof.
  intros w w' r H. unfold Py.fstat_size in H.
  destruct (fds w !! fd) as [f|]; [destruct (fo_closed f)|];
    injection H as <- <-; reflexivity.
Qed.

Lemma same_files_read fd n : preserves same_files (Py.read fd n).
Proof.
  intros w w' r H. unfold Py.read in H.
  destruct (fds w !! fd) as [f|];
    [destruct (fo_mode f), (fo_closed f)|];
    injection H as <- <-; reflexivity.
Qed.

Lemma same_files_body fd ending : preserves same_files (Dumper.body fd ending).
Proof.
  pose proof same_files_refl as Hr. pose proof same_files_trans as Ht.
  unfold Dumper.body. apply preserves_bind; [assumption| |].
  - apply preserves_try_except; [assumption| |apply preserves_ret, Hr].
    apply preserves_bind; [assumption|apply same_files_read|].
    intros data. apply preserves_bind; [assumption| |].
    + apply preserves_lift, Hr.
    + intros v. apply preserves_ret, Hr.
  - intros [v|]; [|apply preserves_ret, Hr].
    apply preserves_bind; [assumption|apply same_files_print|].
    intros _. apply preserves_ret, Hr.
Qed.

Lemma same_files_main argv : preserves same_files (Dumper.main argv).
Proof.
  pose proof same_files_refl as Hr. pose proof same_files_trans as Ht.
  unfold Dumper.main, Dumper.run.
  apply preserves_bind; [assumption| |].
  { destruct (length argv <? 2); [|apply preserves_ret, Hr].
    apply preserves_bind; [assumption|apply same_files_argv_at|].
    intros prog.
    repeat (apply preserves_bind;
            [assumption|apply same_files_print|intros _]).
    apply preserves_raise, Hr. }
  intros _. apply preserves_bind; [assumption|apply same_files_argv_at|].
  intros filename. apply preserves_bind; [assumption| |].
  { destruct (2 <? length argv);
      [apply same_files_argv_at|apply preserves_ret, Hr]. }
  intros ending.
  apply preserves_bind; [assumption|apply same_files_open_rb|].
  intros binary_file.
  apply preserves_bind; [assumption|apply same_files_fstat|].
  intros size. apply preserves_bind; [assumption| |].
  { intros w w' r [= <- <-]. reflexivity. }
  intros _. apply preserves_for_range; [assumption..|].
  apply same_files_body.
Qed.

(** ** What the converter's steps leave alone *)

Lemma writes_only_refl outp fo w : writes_only outp fo w w.
Proof. intros H. auto. Qed.

Lemma writes_only_trans outp fo w1 w2 w3 :
  writes_only outp fo w1 w2 → writes_only outp fo w2 w3 →
  writes_only outp fo w1 w3.
Proof.
  intros H12 H23 H1.
  destruct (H12 H1) as (H2 & F12 & S12).
  destruct (H23 H2) as (H3 & F23 & S23).
  split; [exact H3|]. split; [|congruence].
  intros p Hp. rewrite F23, F12 by exact Hp. reflexivity.
Qed.

(** Replacing an entry of the table by one on the same path keeps [fo]
    where it stands. *)
Lemma path_kept_insert (t : list file_obj) fd fo f g outp :
  t !! fd = Some f →
  fo_path g = fo_path f →
  (∀ h, t !! fo = Some h → fo_path h = outp) →
  ∀ h, <[fd := g]> t !! fo = Some h → fo_path h = outp.
Proof.
  intros Hfd Hpath Hinv h Hh.
  apply list_lookup_insert_Some in Hh as [(-> & <- & _)|(_ & Hh)].
  - rewrite Hpath. apply Hinv, Hfd.
  - apply Hinv, Hh.
Qed.

Lemma writes_only_read outp fo fd n :
  preserves (writes_only outp fo) (Py.read fd n).
Proof.
  intros w w' r H Hinv. unfold Py.read in H.
  destruct (fds w !! fd) as [f|] eqn:Hfd;
    [destruct (fo_mode f), (fo_closed f)|];
    injection H as <- <-; auto.
  split; [|auto]. simpl.
  eapply path_kept_insert; [exact Hfd|reflexivity|exact Hinv].
Qed.

Lemma writes_only_write outp fo data :
  preserves (writes_only outp fo) (Py.write fo data).
Proof.
  intros w w' r H Hinv. unfold Py.write in H.
  destruct (fds w !! fo) as [f|] eqn:Hfd;
    [destruct (fo_mode f), (fo_closed f)|];
    injection H as <- <-; rewrite <- ?Hfd in Hinv; auto.
  split; [|split; [|reflexivity]]; simpl.
  - eapply path_kept_insert; [exact Hfd|reflexivity|exact Hinv].
  - intros p Hp. apply lookup_insert_ne.
    rewrite (Hinv f Hfd). auto.
Qed.

Lemma writes_only_close outp fo fd :
  preserves (writes_only outp fo) (Py.close fd).
Proof.
  intros w w' r H Hinv. unfold Py.close in H.
  destruct (fds w !! fd) as [f|] eqn:Hfd; injection H as <- <-; auto.
  split; [|auto]. simpl.
  eapply path_kept_insert; [exact Hfd|reflexivity|exact Hinv].
Qed.

Lemma writes_only_while fuel outp fi fo : ∀ data,
  preserves (writes_only outp fo) (Converter.while_data fuel fi fo data).
Proof.
  pose proof (writes_only_refl outp fo) as Hr.
  pose proof (writes_only_trans outp fo) as Ht.
  induction fuel as [|fuel IH]; intros [|b data];
    try (apply preserves_ret, Hr).
  { intros w w' r [= <- <-]. apply Hr. }
  cbn [Converter.while_data].
  apply preserves_bind; [assumption|apply preserves_lift, Hr|].
  intros value.
  apply preserves_bind; [assumption|apply preserves_lift, Hr|].
  intros new_value.
  apply preserves_bind; [assumption|apply writes_only_write|].
  intros _.
  apply preserves_bind; [assumption|apply writes_only_read|].
  exact IH.
Qed.

Lemma writes_only_guarded fuel outp fi fo :
  preserves (writes_only outp fo)
    (Py.try_finally
       (data ← Py.read fi 4; Converter.while_data fuel fi fo data)
       (Py.close fi;; Py.close fo)).
Proof.
  pose proof (writes_only_refl outp fo) as Hr.
  pose proof (writes_only_trans outp fo) as Ht.
  apply preserves_try_finally; [assumption| |].
  - apply preserves_bind; [assumption|apply writes_only_read|].
    apply writes_only_while.
  - apply preserves_bind; [assumption|apply writes_only_close|].
    intros _. apply writes_only_close.
Qed.

(** ** The converter called with two paths, whatever happens *)

Lemma converter_three_frame fuel prog a b w :
  (∀ p, p ≠ b →
     files (Converter.main fuel [prog; a; b] w).1 !! p = files w !! p)
  ∧ stdout (Converter.main fuel [prog; a; b] w).1 = stdout w.
Proof.
  unfold Converter.main. cbn [length Nat.eqb negb].
  rewrite bind_ret. cbn [Py.argv_at lookup list_lookup]. rewrite bind_ret.
  destruct (files w !! a) as [content|] eqn:Hin.
  2:{ erewrite bind_raise by (unfold Py.open; rewrite Hin; reflexivity).
      auto. }
  set (a0 := FileObj a RB 0 false).
  set (wa := set_fds (λ t, t ++ [a0]) w).
  erewrite (bind_val (Py.open a RB) _ w wa (length (fds w)))
    by (unfold Py.open; rewrite Hin; reflexivity).
  rewrite bind_ret.
  destruct (decide (b ∈ readonly w)) as [Hro|Hrw].
  { erewrite (bind_raise (Py.open b WB) _ wa wa PermissionError)
      by (unfold Py.open; rewrite decide_True by exact Hro; reflexivity).
    auto. }
  set (b0 := FileObj b WB 0 false).
  set (wb := set_fds (λ t, t ++ [b0]) (set_files (insert b []) wa)).
  erewrite (bind_val (Py.open b WB) _ wa wb (length (fds wa)))
    by (unfold Py.open; rewrite decide_False by exact Hrw; reflexivity).
  match goal with
  | |- context [Py.try_finally ?body ?fin wb] =>
      destruct (Py.try_finally body fin wb) as [w' r] eqn:E
  end.
  pose proof (writes_only_guarded fuel b _ _ _ _ _ E) as HE.
  destruct HE as (_ & Hfiles & Hout).
  { intros f Hf. simpl in Hf.
    rewrite list_lookup_middle in Hf by reflexivity.
    injection Hf as <-. reflexivity. }
  cbn [fst]. split; [|exact Hout].
  intros p Hp. rewrite Hfiles by exact Hp. simpl.
  apply lookup_insert_ne. auto.
Qed.

(** ** Values and lines *)

Lemma word_values_swap bs :
  word_values Struct.Little (swap_words bs) = word_values Struct.Big bs.
Proof.
  induction bs as [bs IH] using (induction_ltof1 _ (@length byte)).
  unfold ltof in IH.
  destruct bs as [|b0 [|b1 [|b2 [|b3 rest]]]]; try reflexivity.
  cbn [swap_words].
  destruct (word_values_cons Struct.Little b3 b2 b1 b0 (swap_words rest))
    as (v & Hv & ->).
  destruct (word_values_cons Struct.Big b0 b1 b2 b3 rest) as (v' & Hv' & ->).
  rewrite unpack_little_rev_big in Hv.
  rewrite IH by (simpl; lia). congruence.
Qed.

Lemma word_values_app o bs1 bs2 :
  length bs1 mod 4 = 0 →
  word_values o (bs1 ++ bs2) = word_values o bs1 ++ word_values o bs2.
Proof.
  induction bs1 as [bs1 IH] using (induction_ltof1 _ (@length byte)).
  unfold ltof in IH. intros Hmod.
  destruct bs1 as [|b0 [|b1 [|b2 [|b3 rest]]]]; try reflexivity;
    try discriminate Hmod.
  rewrite length_four_more, Nat.Div0.mod_add in Hmod.
  change ((b0 :: b1 :: b2 :: b3 :: rest) ++ bs2)
    with (b0 :: b1 :: b2 :: b3 :: (rest ++ bs2)).
  destruct (word_values_cons o b0 b1 b2 b3 rest) as (v & Hv & ->).
  destruct (word_values_cons o b0 b1 b2 b3 (rest ++ bs2)) as (v' & Hv' & ->).
  rewrite IH by (simpl; lia || exact Hmod).
  rewrite <- app_comm_cons. congruence.
Qed.

Lemma render_app ending vs1 vs2 :
  render ending (vs1 ++ vs2) = render ending vs1 +:+ render ending vs2.
Proof.
  induction vs1 as [|v vs1 IH]; [reflexivity|].
  cbn [app render foldr]. fold (render ending (vs1 ++ vs2)).
  fold (render ending vs1). rewrite IH. symmetry. apply append_assoc.
Qed.

Lemma digits_no_newline d :
  count_lines (NilEmpty.string_of_uint d) = 0.
Proof. induction d; cbn [NilEmpty.string_of_uint count_lines]; auto. Qed.

Lemma py_str_no_newline v : count_lines (py_str v) = 0.
Proof.
  unfold py_str, NilZero.string_of_int, NilZero.string_of_uint.
  destruct (Z.to_int v) as [d|d]; destruct d;
    try reflexivity; try apply digits_no_newline;
    cbn [count_lines Ascii.eqb]; apply digits_no_newline.
Qed.

Lemma count_lines_render_nl vs : count_lines (render nl vs) = length vs.
Proof.
  induction vs as [|v vs IH]; [reflexivity|].
  cbn [render foldr length]. fold (render nl vs).
  rewrite !count_lines_app, py_str_no_newline, IH. reflexivity.
Qed.

(** ** Converter: edge behaviour *)

(** X1. Missing input: when the input path does not exist the converter
    stops with [FileNotFoundError] (exit status 1) before the output is
    opened; the world is exactly as before, so an existing output file is
    neither truncated nor created. *)
Theorem converter_missing_input fuel prog inp outp w :
  files w !! inp = None →
  Converter.main fuel [prog; inp; outp] w = (w, Raise FileNotFoundError)
  ∧ exit_status (Raise (A := unit) FileNotFoundError) = Some 1%Z.
Proof.
  intros Hin. split; [|reflexivity].
  unfold Converter.main. cbn [length Nat.eqb negb].
  rewrite bind_ret. cbn [Py.argv_at lookup list_lookup]. rewrite bind_ret.
  apply bind_raise. unfold Py.open. rewrite Hin. reflexivity.
Qed.

Lemma converter_missing_input_witness :
  files sample_world !! "missing.bin" = None
  ∧ Converter.main 3 ["convert_to_little.py"; "missing.bin"; "words.bin"]
      sample_world = (sample_world, Raise FileNotFoundError)
  ∧ exit_status (Raise (A := unit) FileNotFoundError) = Some 1%Z.
Proof.
  split; [reflexivity|].
  apply (converter_missing_input 3 "convert_to_little.py" "missing.bin"
           "words.bin" sample_world).
  reflexivity.
Defined.

(** X2. Converting a file onto itself: with the same path as input and
    output, opening the output truncates the file before the first read,
    so the run ends normally (exit status 0) with the file empty, whatever
    it held. *)
Theorem converter_in_place_empties fuel prog path w content :
  files w !! path = Some content →
  path ∉ readonly w →
  ∃ w',
    Converter.main fuel [prog; path; path] w = (w', Val ())
    ∧ exit_status (Val ()) = Some 0%Z
    ∧ files w' !! path = Some [].
Proof.
  intros Hin Hrw.
  destruct (converter_run_same fuel prog path w content Hin Hrw)
    as (w' & Hrun & Hempty & _).
  exists w'. auto.
Qed.

Lemma converter_in_place_empties_witness :
  files sample_world !! "in.bin"
  = Some [x00; x00; x00; x01; x12; x34; x56; x78]
  ∧ ∃ w',
      Converter.main 0 ["convert_to_little.py"; "in.bin"; "in.bin"]
        sample_world = (w', Val ())
      ∧ exit_status (Val ()) = Some 0%Z
      ∧ files w' !! "in.bin" = Some [].
Proof.
  split; [reflexivity|].
  apply (converter_in_place_empties 0 "convert_to_little.py" "in.bin"
           sample_world [x00; x00; x00; x01; x12; x34; x56; x78]).
  - reflexivity.
  - apply not_elem_of_empty.
Defined.

(** X3. Output that cannot be opened: the input is opened first and outside
    the [try], so when opening the output fails the run ends with that
    error, no file has changed, and the input's file object is left
    open. *)
Theorem converter_unwritable_output fuel prog inp outp w content :
  files w !! inp = Some content →
  outp ∈ readonly w →
  ∃ w',
    Converter.main fuel [prog; inp; outp] w = (w', Raise PermissionError)
    ∧ files w' = files w
    ∧ stdout w' = stdout w
    ∧ fds w' = fds w ++ [FileObj inp RB 0 false]
    ∧ ¬ all_closed w'.
Proof.
  intros Hin Hro.
  exists (set_fds (λ t, t ++ [FileObj inp RB 0 false]) w).
  split.
  { unfold Converter.main. cbn [length Nat.eqb negb].
    rewrite bind_ret. cbn [Py.argv_at lookup list_lookup]. rewrite bind_ret.
    erewrite (bind_val (Py.open inp RB) _ w _ (length (fds w)))
      by (unfold Py.open; rewrite Hin; reflexivity).
    rewrite bind_ret. apply bind_raise.
    unfold Py.open. rewrite decide_True by exact Hro. reflexivity. }
  repeat split.
  unfold all_closed. simpl. intros Hall.
  apply Forall_app in Hall as [_ Hall].
  apply Forall_cons in Hall as [Hopen _]. discriminate Hopen.
Qed.

Lemma converter_unwritable_output_witness :
  ("out.bin" ∈ readonly locked_world)
  ∧ ∃ w',
      Converter.main 3 ["convert_to_little.py"; "in.bin"; "out.bin"]
        locked_world = (w', Raise PermissionError)
      ∧ files w' = files locked_world
      ∧ stdout w' = stdout locked_world
      ∧ fds w' = fds locked_world ++ [FileObj "in.bin" RB 0 false]
      ∧ ¬ all_closed w'.
Proof.
  split; [vm_compute; reflexivity|].
  apply (converter_unwritable_output 3 "convert_to_little.py" "in.bin"
           "out.bin" locked_world
           [x00; x00; x00; x01; x12; x34; x56; x78]).
  - reflexivity.
  - vm_compute. reflexivity.
Defined.

(** X5. The converter prints nothing unless it prints its usage: called
    with exactly two paths it leaves standard output untouched, whether the
    run succeeds, fails on a file, or stops on a partial word. *)
Theorem converter_silent fuel argv w :
  length argv = 3 →
  stdout (Converter.main fuel argv w).1 = stdout w.
Proof.
  intros Hlen.
  destruct argv as [|prog [|a [|b [|c rest]]]]; try discriminate Hlen.
  apply converter_three_frame.
Qed.

Lemma converter_silent_witness :
  stdout (Converter.main 3 ["convert_to_little.py"; "six.bin"; "out.bin"]
            sample_world).1
  = stdout sample_world.
Proof.
  apply (converter_silent 3
           ["convert_to_little.py"; "six.bin"; "out.bin"] sample_world).
  reflexivity.
Defined.

(** X6. Converter then dumper: dumping the converter's output prints, in
    order, the values of the complete 4-byte words of the original input
    read as big-endian, whether or not the input ended in a partial
    word. *)
Theorem convert_then_dump fuel cprog dprog inp outp rest w content :
  inp ≠ outp →
  files w !! inp = Some content →
  outp ∉ readonly w →
  length content / 4 < fuel →
  ∃ w1 r w2 vs,
    Converter.main fuel [cprog; inp; outp] w = (w1, r)
    ∧ Dumper.main (dprog :: outp :: rest) w1 = (w2, Val ())
    ∧ stdout w2 = stdout w +:+ render (default nl (head rest)) vs
    ∧ length vs = length content / 4
    ∧ ∀ i v, vs !! i = Some v →
        Struct.unpack_I Struct.Big (word_at i content) = inr v.
Proof.
  intros Hne Hin Hrw Hfuel.
  destruct (converter_run fuel cprog inp outp w content Hne Hin Hrw Hfuel)
    as (w1 & Hrun & Hout & _ & Hstd & _).
  destruct (dumper_run id dprog outp rest w1 (swap_words content)
              (swap_words content) Hout Hout)
    as (w2 & Hrun2 & Hout2 & _).
  rewrite take_ge in Hout2
    by (rewrite word_values_length, swap_words_length; lia).
  rewrite word_values_swap, Hstd in Hout2.
  eexists w1, _, w2, (word_values Struct.Big content).
  split; [exact Hrun|]. split; [exact Hrun2|]. split; [exact Hout2|].
  split; [apply word_values_length|].
  intros i v. apply word_values_lookup.
Qed.

Lemma convert_then_dump_witness :
  ∃ w1 r w2 vs,
    Converter.main 3 ["convert_to_little.py"; "six.bin"; "out.bin"]
      sample_world = (w1, r)
    ∧ Dumper.main ["read_binary.py"; "out.bin"] w1 = (w2, Val ())
    ∧ stdout w2 = stdout sample_world +:+ render nl vs
    ∧ length vs = 1
    ∧ ∀ i v, vs !! i = Some v →
        Struct.unpack_I Struct.Big
          (word_at i [x01; x00; x00; x00; x02; x00]) = inr v.
Proof.
  apply (convert_then_dump 3 "convert_to_little.py" "read_binary.py"
           "six.bin" "out.bin" [] sample_world
           [x01; x00; x00; x00; x02; x00]).
  - discriminate.
  - reflexivity.
  - apply not_elem_of_empty.
  - simpl. lia.
Defined.

(** ** Dumper: edge behaviour *)

(** X7. Missing file: when the named file does not exist the dumper stops
    with [FileNotFoundError] (exit status 1); nothing is printed and the
    world is exactly as before. *)
Theorem dumper_missing_file prog filename rest w :
  files w !! filename = None →
  Dumper.main (prog :: filename :: rest) w = (w, Raise FileNotFoundError)
  ∧ exit_status (Raise (A := unit) FileNotFoundError) = Some 1%Z.
Proof.
  intros Hf. split; [|reflexivity].
  unfold Dumper.main, Dumper.run.
  replace (length (prog :: filename :: rest) <? 2) with false by reflexivity.
  rewrite bind_ret.
  change (Py.argv_at (prog :: filename :: rest) 1)
    with (mret (M := M) filename).
  rewrite bind_ret.
  assert (Hend : (if 2 <? length (prog :: filename :: rest)
                  then Py.argv_at (prog :: filename :: rest) 2
                  else mret nl) w
                 = (w, Val (default nl (head rest))))
    by (destruct rest; reflexivity).
  rewrite (bind_val _ _ w w _ Hend).
  apply bind_raise. unfold Py.open. rewrite Hf. reflexivity.
Qed.

Lemma dumper_missing_file_witness :
  files sample_world !! "missing.bin" = None
  ∧ Dumper.main ["read_binary.py"; "missing.bin"; ","] sample_world
    = (sample_world, Raise FileNotFoundError)
  ∧ exit_status (Raise (A := unit) FileNotFoundError) = Some 1%Z.
Proof.
  split; [reflexivity|].
  apply (dumper_missing_file "read_binary.py" "missing.bin" [","]
           sample_world).
  reflexivity.
Defined.

(** X8. Default separator: called without a separator the dumper adds
    exactly one line to standard output per complete word of the file. *)
Theorem dumper_default_one_line_per_word prog filename w content :
  files w !! filename = Some content →
  count_lines (stdout (Dumper.main [prog; filename] w).1)
  = count_lines (stdout w) + length content / 4.
Proof.
  intros Hf.
  destruct (dumper_run id prog filename [] w content content Hf Hf)
    as (w' & Hrun & Hout & _).
  rewrite take_ge in Hout by (rewrite word_values_length; lia).
  unfold Dumper.main. rewrite Hrun. cbn [fst].
  rewrite Hout, count_lines_app. cbn [head default].
  rewrite count_lines_render_nl, word_values_length. reflexivity.
Qed.

Lemma dumper_default_one_line_per_word_witness :
  count_lines (stdout (Dumper.main ["read_binary.py"; "six.bin"]
                         sample_world).1)
  = count_lines (stdout sample_world)
    + length [x01; x00; x00; x00; x02; x00] / 4.
Proof.
  apply (dumper_default_one_line_per_word "read_binary.py" "six.bin"
           sample_world [x01; x00; x00; x00; x02; x00]).
  reflexivity.
Defined.

(** X9. The dumper never writes a file: for any argument list and any
    way the run ends, the file system afterwards is the one it started
    with. *)
Theorem dumper_never_writes argv w :
  files (Dumper.main argv w).1 = files w.
Proof.
  destruct (Dumper.main argv w) as [w' r] eqn:E.
  exact (same_files_main argv w w' r E).
Qed.

(** X10. A file that grows after its size was taken: the number of reads
    was fixed from the size seen by [fstat], so only that many words of
    the grown file are printed and the file object stops after them. *)
Theorem dumper_file_grows env prog filename rest w content content' :
  files w !! filename = Some content →
  env (files w) !! filename = Some content' →
  4 * (length content / 4) ≤ length content' →
  ∃ w' vs,
    Dumper.run env (prog :: filename :: rest) w = (w', Val ())
    ∧ stdout w' = stdout w +:+ render (default nl (head rest)) vs
    ∧ length vs = length content / 4
    ∧ (∀ i v, vs !! i = Some v →
         Struct.unpack_I Struct.Little (word_at i content') = inr v)
    ∧ fds w'
      = fds w ++ [FileObj filename RB (4 * (length content / 4)) false].
Proof.
  intros Hf Hf' Hgrow.
  destruct (dumper_run env prog filename rest w content content' Hf Hf')
    as (w' & Hrun & Hout & _ & _ & Hfds).
  rewrite Nat.min_l in Hfds by exact Hgrow.
  assert (Hwords : length content / 4 ≤ length content' / 4)
    by (apply Nat.div_le_lower_bound; lia).
  exists w', (take (length content / 4)
                (word_values Struct.Little content')).
  split; [exact Hrun|]. split; [exact Hout|].
  split; [rewrite length_take, word_values_length; lia|].
  split; [|exact Hfds].
  intros i v Hv. apply lookup_take_Some in Hv as [Hv _].
  apply word_values_lookup, Hv.
Qed.

Lemma dumper_file_grows_witness :
  ∃ w' vs,
    Dumper.run
      (insert "six.bin"
         [x01; x00; x00; x00; x02; x00; x00; x00; x03; x00; x00; x00])
      ["read_binary.py"; "six.bin"] sample_world = (w', Val ())
    ∧ stdout w' = stdout sample_world +:+ render nl vs
    ∧ length vs = 1
    ∧ (∀ i v, vs !! i = Some v →
         Struct.unpack_I Struct.Little
           (word_at i [x01; x00; x00; x00; x02; x00; x00; x00;
                       x03; x00; x00; x00]) = inr v)
    ∧ fds w' = fds sample_world ++ [FileObj "six.bin" RB 4 false].
Proof.
  apply (dumper_file_grows
           (insert "six.bin"
              [x01; x00; x00; x00; x02; x00; x00; x00; x03; x00; x00; x00])
           "read_binary.py" "six.bin" [] sample_world
           [x01; x00; x00; x00; x02; x00]
           [x01; x00; x00; x00; x02; x00; x00; x00; x03; x00; x00; x00]).
  - reflexivity.
  - reflexivity.
  - simpl. lia.
Defined.

(** X11. Dumping in pieces: when a file is the concatenation of two others
    and the first has a whole number of words, dumping the first and then
    the second leaves on standard output exactly what dumping the
    concatenation does. *)
Theorem dumper_concatenation prog f1 f2 f12 rest w c1 c2 :
  files w !! f1 = Some c1 →
  files w !! f2 = Some c2 →
  files w !! f12 = Some (c1 ++ c2) →
  length c1 mod 4 = 0 →
  ∃ w1 w2 w12,
    Dumper.main (prog :: f1 :: rest) w = (w1, Val ())
    ∧ Dumper.main (prog :: f2 :: rest) w1 = (w2, Val ())
    ∧ Dumper.main (prog :: f12 :: rest) w = (w12, Val ())
    ∧ stdout w2 = stdout w12.
Proof.
  intros H1 H2 H12 Hmod.
  destruct (dumper_run id prog f1 rest w c1 c1 H1 H1)
    as (w1 & Hrun1 & Hout1 & Hfiles1 & _).
  assert (H2' : files w1 !! f2 = Some c2) by (rewrite Hfiles1; exact H2).
  destruct (dumper_run id prog f2 rest w1 c2 c2 H2' H2')
    as (w2 & Hrun2 & Hout2 & _).
  destruct (dumper_run id prog f12 rest w (c1 ++ c2) (c1 ++ c2) H12 H12)
    as (w12 & Hrun12 & Hout12 & _).
  rewrite take_ge in Hout1, Hout2, Hout12
    by (rewrite word_values_length; lia).
  exists w1, w2, w12. repeat split; try assumption.
  rewrite Hout2, Hout1, Hout12, word_values_app, render_app by exact Hmod.
  apply append_assoc.
Qed.

Lemma dumper_concatenation_witness :
  ∃ w1 w2 w12,
    Dumper.main ["read_binary.py"; "words.bin"; ","]
      (set_files (insert "both.bin"
                    ([x01; x00; x00; x00; x02; x00; x00; x00]
                     ++ [x01; x00; x00; x00; x02; x00])) sample_world)
    = (w1, Val ())
    ∧ Dumper.main ["read_binary.py"; "six.bin"; ","] w1 = (w2, Val ())
    ∧ Dumper.main ["read_binary.py"; "both.bin"; ","]
        (set_files (insert "both.bin"
                      ([x01; x00; x00; x00; x02; x00; x00; x00]
                       ++ [x01; x00; x00; x00; x02; x00])) sample_world)
      = (w12, Val ())
    ∧ stdout w2 = stdout w12.
Proof.
  apply (dumper_concatenation "read_binary.py" "words.bin" "six.bin"
           "both.bin" [","]
           (set_files (insert "both.bin"
                         ([x01; x00; x00; x00; x02; x00; x00; x00]
                          ++ [x01; x00; x00; x00; x02; x00])) sample_world)
           [x01; x00; x00; x00; x02; x00; x00; x00]
           [x01; x00; x00; x00; x02; x00]);
    reflexivity.
Defined.

(** ** Converter: files in pieces *)

Lemma swap_words_app bs1 bs2 :
  length bs1 mod 4 = 0 →
  swap_words (bs1 ++ bs2) = swap_words bs1 ++ swap_words bs2.
Proof.
  induction bs1 as [bs1 IH] using (induction_ltof1 _ (@length byte)).
  unfold ltof in IH. intros Hmod.
  destruct bs1 as [|b0 [|b1 [|b2 [|b3 rest]]]]; try reflexivity;
    try discriminate Hmod.
  rewrite length_four_more, Nat.Div0.mod_add in Hmod.
  change ((b0 :: b1 :: b2 :: b3 :: rest) ++ bs2)
    with (b0 :: b1 :: b2 :: b3 :: (rest ++ bs2)).
  cbn [swap_words]. rewrite IH by (simpl; lia || exact Hmod). reflexivity.
Qed.

(** X12. Converting in pieces: when an input is the concatenation of two
    others and the first has a whole number of words, its conversion is the
    conversion of the first followed by the conversion of the second, and
    it ends the way the conversion of the second ends. *)
Theorem converter_concatenation fuel prog i1 i2 i12 outp w c1 c2 :
  i1 ≠ outp → i2 ≠ outp → i12 ≠ outp →
  files w !! i1 = Some c1 →
  files w !! i2 = Some c2 →
  files w !! i12 = Some (c1 ++ c2) →
  outp ∉ readonly w →
  length c1 mod 4 = 0 →
  length (c1 ++ c2) / 4 < fuel →
  ∃ w1 w2 w12 r out1 out2,
    Converter.main fuel [prog; i1; outp] w = (w1, Val ())
    ∧ Converter.main fuel [prog; i2; outp] w = (w2, r)
    ∧ Converter.main fuel [prog; i12; outp] w = (w12, r)
    ∧ files w1 !! outp = Some out1
    ∧ files w2 !! outp = Some out2
    ∧ files w12 !! outp = Some (out1 ++ out2).
Proof.
  intros Hn1 Hn2 Hn12 H1 H2 H12 Hrw Hmod Hfuel.
  rewrite length_app in Hfuel.
  assert (Hf1 : length c1 / 4 < fuel).
  { eapply Nat.le_lt_trans; [|exact Hfuel].
    apply Nat.Div0.div_le_mono. lia. }
  assert (Hf2 : length c2 / 4 < fuel).
  { eapply Nat.le_lt_trans; [|exact Hfuel].
    apply Nat.Div0.div_le_mono. lia. }
  assert (Hf12 : length (c1 ++ c2) / 4 < fuel)
    by (rewrite length_app; exact Hfuel).
  destruct (converter_run fuel prog i1 outp w c1 Hn1 H1 Hrw Hf1)
    as (w1 & Hrun1 & Hout1 & _).
  destruct (converter_run fuel prog i2 outp w c2 Hn2 H2 Hrw Hf2)
    as (w2 & Hrun2 & Hout2 & _).
  destruct (converter_run fuel prog i12 outp w (c1 ++ c2) Hn12 H12 Hrw Hf12)
    as (w12 & Hrun12 & Hout12 & _).
  rewrite Hmod in Hrun1.
  assert (Hm : length (c1 ++ c2) mod 4 = length c2 mod 4).
  { rewrite length_app.
    pose proof (Nat.div_mod_eq (length c1) 4) as Hd.
    rewrite Hmod, Nat.add_0_r in Hd.
    rewrite Hd, Nat.add_comm, Nat.mul_comm. apply Nat.Div0.mod_add. }
  rewrite Hm in Hrun12.
  rewrite swap_words_app in Hout12 by exact Hmod.
  eexists w1, w2, w12, _, _, _.
  repeat split; eassumption.
Qed.

Lemma converter_concatenation_witness :
  ∃ w1 w2 w12 r out1 out2,
    Converter.main 5 ["convert_to_little.py"; "words.bin"; "out.bin"]
      (set_files (insert "both.bin"
                    ([x01; x00; x00; x00; x02; x00; x00; x00]
                     ++ [x01; x00; x00; x00; x02; x00])) sample_world)
    = (w1, Val ())
    ∧ Converter.main 5 ["convert_to_little.py"; "six.bin"; "out.bin"]
        (set_files (insert "both.bin"
                      ([x01; x00; x00; x00; x02; x00; x00; x00]
                       ++ [x01; x00; x00; x00; x02; x00])) sample_world)
      = (w2, r)
    ∧ Converter.main 5 ["convert_to_little.py"; "both.bin"; "out.bin"]
        (set_files (insert "both.bin"
                      ([x01; x00; x00; x00; x02; x00; x00; x00]
                       ++ [x01; x00; x00; x00; x02; x00])) sample_world)
      = (w12, r)
    ∧ files w1 !! "out.bin" = Some out1
    ∧ files w2 !! "out.bin" = Some out2
    ∧ files w12 !! "out.bin" = Some (out1 ++ out2).
Proof.
  apply (converter_concatenation 5 "convert_to_little.py"
           "words.bin" "six.bin" "both.bin" "out.bin"
           (set_files (insert "both.bin"
                         ([x01; x00; x00; x00; x02; x00; x00; x00]
                          ++ [x01; x00; x00; x00; x02; x00])) sample_world)
           [x01; x00; x00; x00; x02; x00; x00; x00]
           [x01; x00; x00; x00; x02; x00]);
    try discriminate; try reflexivity.
  simpl. lia.
Defined.

(** ** Dumper: a file that changes while it is read *)

Lemma interference_id w : Py.interference id w = (w, Val ()).
Proof. destruct w. reflexivity. Qed.

Lemma passes_quiet n fd ending : ∀ i w,
  Dumper.passes (λ _, id) i n fd ending w
  = Py.for_range n (Dumper.body fd ending) w.
Proof.
  induction n as [|n IH]; intros i w; [reflexivity|].
  cbn [Dumper.passes Py.for_range].
  rewrite (bind_val _ _ w w () (interference_id w)).
  unfold mbind, M_bind.
  destruct (Dumper.body fd ending w) as [w1 [[]|e|]]; auto.
Qed.

(** With nothing else touching the file system, [run_live] is the script
    as [main] runs it. *)
Lemma run_live_quiet argv w :
  Dumper.run_live (λ _, id) argv w = Dumper.main argv w.
Proof.
  unfold Dumper.main, Dumper.run, Dumper.run_live, mbind, M_bind.
  repeat match goal with
         | |- context [match ?m w with _ => _ end] =>
             destruct (m w) as [? [?|?|]]; try reflexivity
         | |- context [match ?m ?w0 with _ => _ end] =>
             lazymatch m with
             | Py.interference id => rewrite (interference_id w0)
             | _ => destruct (m w0) as [? [?|?|]]; try reflexivity
             end
         end.
  apply passes_quiet.
Qed.








(** ** Both scripts: the end of the process *)

Lemma finalize_all_closed w : all_closed (finalize w).
Proof.
  unfold all_closed, finalize. simpl.
  apply Forall_forall. intros f Hf.
  apply list_elem_of_fmap in Hf as (g & -> & _). reflexivity.
Qed.

Lemma close_obj_closed (t : list file_obj) :
  Forall (λ f, fo_closed f = true) t → map close_obj t = t.
Proof.
  induction 1 as [|[path m pos closed] t Hc _ IH]; [reflexivity|].
  simpl in Hc. subst closed. cbn [map]. rewrite IH. reflexivity.
Qed.

Lemma finalize_closed w : all_closed w → finalize w = w.
Proof.
  intros Hall. destruct w as [fs ro t out]. unfold finalize, set_fds.
  simpl. rewrite close_obj_closed by exact Hall. reflexivity.
Qed.

Lemma process_exited {A} (script : M A) w w' code :
  process script w = (w', Some code) → all_closed w'.
Proof.
  unfold process. destruct (script w) as [w1 [a|e|]]; intros H;
    try discriminate H; injection H as <- _; apply finalize_all_closed.
Qed.

(** C8. Release of file objects: no run of either script that exits leaves
    a file object open.  The converter, once both its files are open,
    closes both itself on every way out, after a normal loop and after the
    [struct.error] of a partial trailing word alike, so that the end of the
    process finds nothing left to release.  The dumper holds its one file
    object open for the whole run and the end of the process releases
    it. *)
Theorem handles_released_at_exit fuel cprog dprog inp outp filename rest w
    content dumped :
  all_closed w →
  files w !! inp = Some content →
  outp ∉ readonly w →
  length content / 4 < fuel →
  files w !! filename = Some dumped →
  (∀ argv w' code,
     process (Converter.main fuel argv) w = (w', Some code) → all_closed w')
  ∧ (∀ argv w' code,
       process (Dumper.main argv) w = (w', Some code) → all_closed w')
  ∧ (∃ w' r pi po,
       Converter.main fuel [cprog; inp; outp] w = (w', r)
       ∧ (r = Val () ∨ r = Raise StructError)
       ∧ fds w' = fds w ++ [FileObj inp RB pi true; FileObj outp WB po true]
       ∧ all_closed w'
       ∧ process (Converter.main fuel [cprog; inp; outp]) w
         = (w', exit_status r))
  ∧ (∃ w',
       Dumper.main (dprog :: filename :: rest) w = (w', Val ())
       ∧ fds w'
         = fds w ++ [FileObj filename RB (4 * (length dumped / 4)) false]
       ∧ process (Dumper.main (dprog :: filename :: rest)) w
         = (finalize w', Some 0%Z)
       ∧ fds (finalize w')
         = fds w ++ [FileObj filename RB (4 * (length dumped / 4)) true]).
Proof.
  intros Hall Hin Hrw Hfuel Hdump.
  split; [intros argv w' code; apply process_exited|].
  split; [intros argv w' code; apply process_exited|].
  destruct (file_objects_at_script_end fuel cprog dprog inp outp filename
              rest w content dumped Hin Hrw Hfuel Hdump)
    as [(w1 & r & pi & po & Hrun1 & Hr & Hfds1 & Hc1)
        (w2 & Hrun2 & Hfds2 & _)].
  split.
  - exists w1, r, pi, po. split; [exact Hrun1|]. split; [exact Hr|].
    split; [exact Hfds1|]. split; [exact (Hc1 Hall)|].
    unfold process. rewrite Hrun1.
    rewrite (finalize_closed w1 (Hc1 Hall)).
    destruct Hr as [-> | ->]; reflexivity.
  - exists w2. split; [exact Hrun2|]. split; [exact Hfds2|].
    split; [unfold process; rewrite Hrun2; reflexivity|].
    unfold finalize. simpl. rewrite Hfds2, map_app.
    rewrite close_obj_closed by exact Hall. reflexivity.
Qed.

Lemma handles_released_at_exit_witness :
  all_closed sample_world
  ∧ (∀ argv w' code,
       process (Converter.main 2 argv) sample_world = (w', Some code) →
       all_closed w')
  ∧ (∀ argv w' code,
       process (Dumper.main argv) sample_world = (w', Some code) →
       all_closed w')
  ∧ (∃ w' r pi po,
       Converter.main 2 ["convert_to_little.py"; "six.bin"; "out.bin"]
         sample_world = (w', r)
       ∧ (r = Val () ∨ r = Raise StructError)
       ∧ fds w' = fds sample_world
                  ++ [FileObj "six.bin" RB pi true;
                      FileObj "out.bin" WB po true]
       ∧ all_closed w'
       ∧ process
           (Converter.main 2 ["convert_to_little.py"; "six.bin"; "out.bin"])
           sample_world = (w', exit_status r))
  ∧ (∃ w',
       Dumper.main ["read_binary.py"; "words.bin"] sample_world
       = (w', Val ())
       ∧ fds w' = fds sample_world ++ [FileObj "words.bin" RB 8 false]
       ∧ process (Dumper.main ["read_binary.py"; "words.bin"]) sample_world
         = (finalize w', Some 0%Z)
       ∧ fds (finalize w')
         = fds sample_world ++ [FileObj "words.bin" RB 8 true]).
Proof.
  split; [constructor|].
  apply (handles_released_at_exit 2 "convert_to_little.py" "read_binary.py"
           "six.bin" "out.bin" "words.bin" [] sample_world
           [x01; x00; x00; x00; x02; x00]
           [x01; x00; x00; x00; x02; x00; x00; x00]).
  - constructor.
  - reflexivity.
  - apply not_elem_of_empty.
  - simpl. lia.
  - reflexivity.
Defined.
